(** * form3: event registration over a spreadsheet-backed store

    A shallow embedding of the API route handlers
    - [src/app/api/events/register/route.ts]  (public registration),
    - the companies route (GET / POST / DELETE / PATCH),
    - the events route (GET / POST / DELETE / PATCH),
    together with the JavaScript primitives they rely on and a model of the
    data-access layer they call.

    Conventions.
    - A JavaScript string is a [string] holding its UTF-8 bytes.
    - A spreadsheet cell, and an optional JSON string property, is a
      [cell := option string]; [None] stands for [undefined], the value of
      an absent cell or property.
    - Asynchronous calls are sequenced in a state-and-exception monad over
      the store; what the handlers cannot compute themselves (the session,
      the clock, bcrypt, the image host) is read from an [env]. *)

From stdpp Require Import base decidable option list strings gmap fin_maps pretty.
From Stdlib Require Import Ascii NArith ZArith Lia.

Local Open Scope string_scope.
Local Open Scope list_scope.
Local Open Scope nat_scope.

(** ** JavaScript values and primitives *)

Module JS.

Abbreviation cell := (option string).

(** [!!v] on a string-or-undefined value. *)
Definition truthy (v : cell) : bool :=
  match v with
  | Some s => negb (String.eqb s "")
  | None => false
  end.

(** [a || b] *)
Definition or_else (a b : cell) : cell := if truthy a then a else b.

(** [v === 'lit'] where the right-hand side is a string. *)
Definition seq_str (v : cell) (s : string) : bool := bool_decide (v = Some s).

(** [ToString] of a string-or-undefined value. *)
Definition to_string (v : cell) : string :=
  match v with
  | Some s => s
  | None => "undefined"
  end.

(** [s.startsWith(p)] *)
Fixpoint startsWith (p s : string) : bool :=
  match p, s with
  | EmptyString, _ => true
  | String a p', String b s' => Ascii.eqb a b && startsWith p' s'
  | String _ _, EmptyString => false
  end.

(** *** Arrays of cells *)

(** [r[i]]: out of range reads give [undefined]. *)
Definition idx (r : list cell) (i : nat) : cell := mjoin (r !! i).

(** [r[i] = v]: writing past the end extends the array, leaving holes. *)
Definition set_idx (i : nat) (v : cell) (r : list cell) : list cell :=
  if decide (i < length r) then <[i := v]> r
  else r ++ replicate (i - length r) None ++ [v].

(** [a.indexOf(s)] on an array of cells, [None] for [-1]. *)
Definition indexOf (s : string) (r : list cell) : option nat :=
  fst <$> list_find (λ c, c = Some s) r.

(** [r[a.indexOf(s)]]; index [-1] reads [undefined]. *)
Definition idx_opt (r : list cell) (i : option nat) : cell :=
  match i with
  | Some k => idx r k
  | None => None
  end.

(** *** UTF-8 / UTF-16 *)

Definition byte_of (a : ascii) : N := N_of_ascii a.

(** Code points of a UTF-8 byte string.  A byte that cannot open a sequence
    and a sequence that is cut short decode to U+FFFD. *)
Fixpoint codepoints (s : string) : list N :=
  match s with
  | EmptyString => []
  | String a s1 =>
    let b0 := byte_of a in
    if (b0 <? 128)%N then b0 :: codepoints s1
    else if ((b0 <? 192) || (248 <=? b0))%N then 65533%N :: codepoints s1
    else
      match s1 with
      | String a1 s2 =>
        let b1 := byte_of a1 in
        if ((192 <=? b0) && (b0 <? 224))%N then
          ((b0 - 192) * 64 + (b1 - 128))%N :: codepoints s2
        else
          match s2 with
          | String a2 s3 =>
            let b2 := byte_of a2 in
            if ((224 <=? b0) && (b0 <? 240))%N then
              ((b0 - 224) * 4096 + (b1 - 128) * 64 + (b2 - 128))%N :: codepoints s3
            else
              match s3 with
              | String a3 s4 =>
                let b3 := byte_of a3 in
                ((b0 - 240) * 262144 + (b1 - 128) * 4096
                              + (b2 - 128) * 64 + (b3 - 128))%N :: codepoints s4
              | EmptyString => [65533%N]
              end
          | EmptyString => [65533%N]
          end
      | EmptyString => [65533%N]
      end
  end.

(** UTF-16 code units of a list of code points. *)
Definition units_of (cp : N) : list N :=
  if (cp <? 65536)%N then [cp]
  else [(55296 + (cp - 65536) / 1024)%N; (56320 + (cp - 65536) mod 1024)%N].

Definition utf16 (s : string) : list N := codepoints s ≫= units_of.

(** *** Regular expressions

    The two patterns of the registration handler are anchored at both ends
    and carry no flags, so [RegExp.prototype.test] is a full match of the
    string's UTF-16 code units. Matching is by derivatives. *)

Inductive re : Type :=
| Never
| Eps
| Cls (p : N → bool)
| Cat (r1 r2 : re)
| Alt (r1 r2 : re)
| Star (r : re).

Fixpoint nullable (r : re) : bool :=
  match r with
  | Never => false
  | Eps => true
  | Cls _ => false
  | Cat r1 r2 => nullable r1 && nullable r2
  | Alt r1 r2 => nullable r1 || nullable r2
  | Star _ => true
  end.

Fixpoint deriv (c : N) (r : re) : re :=
  match r with
  | Never => Never
  | Eps => Never
  | Cls p => if p c then Eps else Never
  | Cat r1 r2 =>
    if nullable r1 then Alt (Cat (deriv c r1) r2) (deriv c r2)
    else Cat (deriv c r1) r2
  | Alt r1 r2 => Alt (deriv c r1) (deriv c r2)
  | Star r1 => Cat (deriv c r1) (Star r1)
  end.

Fixpoint matches (r : re) (s : list N) : bool :=
  match s with
  | [] => nullable r
  | c :: s' => matches (deriv c r) s'
  end.

(** The words of a pattern, to state what [matches] decides. *)
Inductive lang : re → list N → Prop :=
| lang_Eps : lang Eps []
| lang_Cls p c : p c = true → lang (Cls p) [c]
| lang_Cat r1 r2 s1 s2 : lang r1 s1 → lang r2 s2 → lang (Cat r1 r2) (s1 ++ s2)
| lang_Alt_l r1 r2 s : lang r1 s → lang (Alt r1 r2) s
| lang_Alt_r r1 r2 s : lang r2 s → lang (Alt r1 r2) s
| lang_Star_nil r : lang (Star r) []
| lang_Star_app r s1 s2 : lang r s1 → lang (Star r) s2 → lang (Star r) (s1 ++ s2).

(** [r+] *)
Definition Plus (r : re) : re := Cat r (Star r).

(** [r{n}] *)
Fixpoint Times (n : nat) (r : re) : re :=
  match n with
  | O => Eps
  | S n' => Cat r (Times n' r)
  end.

(** [r{0,n}] *)
Fixpoint UpTo (n : nat) (r : re) : re :=
  match n with
  | O => Eps
  | S n' => Alt Eps (Cat r (UpTo n' r))
  end.

(** [r{lo,hi}] *)
Definition Rep (lo hi : nat) (r : re) : re := Cat (Times lo r) (UpTo (hi - lo) r).

Definition Chr (a : ascii) : re := Cls (N.eqb (byte_of a)).

(** [\s]: WhiteSpace and LineTerminator code units. *)
Definition is_space (c : N) : bool :=
  ((9 <=? c) && (c <=? 13) || (c =? 32) || (c =? 160) || (c =? 5760)
   || (8192 <=? c) && (c <=? 8202) || (c =? 8232) || (c =? 8233)
   || (c =? 8239) || (c =? 8287) || (c =? 12288) || (c =? 65279))%N.

(** [\d] *)
Definition is_digit (c : N) : bool := ((48 <=? c) && (c <=? 57))%N.

(** [regex.test(s)] for an anchored pattern. *)
Definition test (r : re) (s : string) : bool := matches r (utf16 s).

(** *** decodeURIComponent

    [Decode] of ECMA-262 with an empty reserved set, on UTF-8: an escape
    below 0x80 yields that character; a lead byte must be followed by the
    escaped continuation bytes of one well-formed UTF-8 sequence, which are
    copied; anything else raises [URIError] ([None]). *)

Inductive uri_token : Type :=
| Lit (a : ascii)
| Esc (b : N).

Definition hex_digit (a : ascii) : option N :=
  let c := byte_of a in
  if ((48 <=? c) && (c <=? 57))%N then Some (c - 48)%N
  else if ((65 <=? c) && (c <=? 70))%N then Some (c - 55)%N
  else if ((97 <=? c) && (c <=? 102))%N then Some (c - 87)%N
  else None.

Fixpoint uri_tokens (s : string) : option (list uri_token) :=
  match s with
  | EmptyString => Some []
  | String "%" s1 =>
    match s1 with
    | String h1 (String h2 s3) =>
      d1 ← hex_digit h1; d2 ← hex_digit h2;
      (Esc (16 * d1 + d2)%N ::.) <$> uri_tokens s3
    | _ => None
    end
  | String a s1 => (Lit a ::.) <$> uri_tokens s1
  end.

Definition in_range (lo hi b : N) : bool := ((lo <=? b) && (b <=? hi))%N.

(** Well-formed UTF-8 sequences of two, three and four bytes. *)
Definition utf8_2 (b0 b1 : N) : bool := in_range 194 223 b0 && in_range 128 191 b1.

Definition utf8_3 (b0 b1 b2 : N) : bool :=
  (((b0 =? 224)%N && in_range 160 191 b1)
   || (in_range 225 236 b0 && in_range 128 191 b1)
   || ((b0 =? 237)%N && in_range 128 159 b1)
   || (in_range 238 239 b0 && in_range 128 191 b1))
  && in_range 128 191 b2.

Definition utf8_4 (b0 b1 b2 b3 : N) : bool :=
  (((b0 =? 240)%N && in_range 144 191 b1)
   || (in_range 241 243 b0 && in_range 128 191 b1)
   || ((b0 =? 244)%N && in_range 128 143 b1))
  && in_range 128 191 b2 && in_range 128 191 b3.

Definition chr (b : N) : ascii := ascii_of_N b.

Fixpoint uri_decode (ts : list uri_token) : option string :=
  match ts with
  | [] => Some EmptyString
  | Lit a :: ts1 => String a <$> uri_decode ts1
  | Esc b0 :: ts1 =>
    if (b0 <? 128)%N then String (chr b0) <$> uri_decode ts1
    else if in_range 192 223 b0 then
      match ts1 with
      | Esc b1 :: ts2 =>
        if utf8_2 b0 b1
        then (λ s, String (chr b0) (String (chr b1) s)) <$> uri_decode ts2
        else None
      | _ => None
      end
    else if in_range 224 239 b0 then
      match ts1 with
      | Esc b1 :: Esc b2 :: ts3 =>
        if utf8_3 b0 b1 b2
        then (λ s, String (chr b0) (String (chr b1) (String (chr b2) s)))
               <$> uri_decode ts3
        else None
      | _ => None
      end
    else if in_range 240 247 b0 then
      match ts1 with
      | Esc b1 :: Esc b2 :: Esc b3 :: ts4 =>
        if utf8_4 b0 b1 b2 b3
        then (λ s, String (chr b0) (String (chr b1)
                     (String (chr b2) (String (chr b3) s)))) <$> uri_decode ts4
        else None
      | _ => None
      end
    else None
  end.

(** [decodeURIComponent(v)]: the argument is first converted to a string, so
    [undefined] decodes to the text "undefined". *)
Definition decodeURIComponent (v : cell) : option string :=
  uri_tokens (to_string v) ≫= uri_decode.

(** *** JSON values of response bodies ([undefined] properties as [JNull]) *)

Unset Elimination Schemes.
Inductive json : Type :=
| JNull
| JBool (b : bool)
| JNum (n : Z)
| JStr (s : string)
| JArr (l : list json)
| JObj (fields : list (string * json)).
Set Elimination Schemes.

Definition of_cell (c : cell) : json :=
  match c with
  | Some s => JStr s
  | None => JNull
  end.

End JS.

Export JS.

(** ** The data-access layer and the request environment *)

Module Sheets.

Abbreviation row := (list cell).
Abbreviation sheet := (list row).
Abbreviation store := (gmap string sheet).

(** *** Awaited calls: state over the store, with exceptions *)

Inductive outcome (A : Type) : Type :=
| Ret (a : A)
| Throw.
Arguments Ret {A} a.
Arguments Throw {A}.

Definition io (A : Type) : Type := store → outcome A * store.

Definition ret {A} (a : A) : io A := λ st, (Ret a, st).
Definition throw {A} : io A := λ st, (Throw, st).

Definition bind {A B} (m : io A) (k : A → io B) : io B :=
  λ st, match m st with
        | (Ret a, st') => k a st'
        | (Throw, st') => (Throw, st')
        end.

(** [try { m } catch { h }]: effects made before the exception stay. *)
Definition try_catch {A} (m : io A) (h : io A) : io A :=
  λ st, match m st with
        | (Ret a, st') => (Ret a, st')
        | (Throw, st') => h st'
        end.

(** A handler whose outermost [try] answers [r] on any exception. *)
Definition run {A} (m : io A) (r : A) : store → A * store :=
  λ st, match m st with
        | (Ret a, st') => (a, st')
        | (Throw, st') => (r, st')
        end.

Global Instance io_ret : MRet io := @ret.
Global Instance io_bind : MBind io := λ A B k m, bind m k.

(** *** Sheets

    The module [@/lib/sheets] is not part of the sources at hand; the
    following definitions model it. *)

(** Modelled from the spec: [getSheetData], missing from the sources.  The
    store is "spreadsheet-backed ... rows/tables emulating a database": a
    sheet is the list of its rows, and reading a sheet that does not exist
    is an error (the companies POST handler relies on that). *)
Definition getSheetData (name : string) : io sheet :=
  λ st, match st !! name with
        | Some d => (Ret d, st)
        | None => (Throw, st)
        end.

(** Modelled from the spec: [appendToSheet], missing from the sources: the
    "row insert" of the spec, below the last row of the sheet. *)
Definition appendToSheet (name : string) (rows : list row) : io unit :=
  λ st, match st !! name with
        | Some d => (Ret (), <[name := d ++ rows]> st)
        | None => (Throw, st)
        end.

(** Modelled from the spec: [createSheet], missing from the sources: a new
    empty sheet; a sheet of that name must not exist yet. *)
Definition createSheet (name : string) : io unit :=
  λ st, match st !! name with
        | Some _ => (Throw, st)
        | None => (Ret (), <[name := []]> st)
        end.

(** How [deleteRow] numbers rows.  Its two callers disagree: the companies
    DELETE handler passes [companyIndex + 1] ("add 1 to account for header
    row", the header being row 0), the PATCH handler [companyIndex + 2]
    ("+2 because of 0-indexing and header row", the header being row 1). *)
Inductive numbering : Type :=
| FromZero
| FromOne.

Definition position (nb : numbering) (k : nat) : option nat :=
  match nb with
  | FromZero => Some k
  | FromOne => match k with O => None | S k' => Some k' end
  end.

(** Modelled from the spec: [deleteRow], missing from the sources: the "row
    delete" of the spec.  The row numbering is a parameter; rows below the
    data are empty, deleting one changes nothing. *)
Definition deleteRow (nb : numbering) (name : string) (k : nat) : io unit :=
  λ st, match st !! name, position nb k with
        | Some d, Some i => (Ret (), <[name := delete i d]> st)
        | _, _ => (Throw, st)
        end.

(** *** Tables

    An event is "stored as a named sub-table within the company's sheet,
    with a fixed header row".  The events GET handler recognises a table by
    a row of one single cell, its name, followed by the header row and the
    data rows. *)

Definition is_blank (r : row) : bool := forallb (λ c, negb (truthy c)) r.

Fixpoint take_while {A} (p : A → bool) (l : list A) : list A :=
  match l with
  | [] => []
  | x :: l' => if p x then x :: take_while p l' else []
  end.

(** Modelled from the spec: where the "named sub-table" [t] starts, missing
    from the sources: at the first row that consists of the name alone. *)
Definition table_start (t : string) (d : sheet) : option nat :=
  fst <$> list_find (λ r : row, r = [Some t]) d.

(** Modelled from the spec: the extent of a table, missing from the sources:
    the rows below the title row at [i], header row first, up to the next
    blank row. *)
Definition table_rows (i : nat) (d : sheet) : list row :=
  take_while (λ r, negb (is_blank r)) (drop (S i) d).

(** Locating a table raises an error when the sheet or the table is missing. *)
Definition with_table {A} (name t : string) (k : sheet → nat → store → outcome A * store)
  : io A :=
  λ st, match st !! name with
        | Some d =>
          match table_start t d with
          | Some i => k d i st
          | None => (Throw, st)
          end
        | None => (Throw, st)
        end.

(** Modelled from the spec: [getTableData], missing from the sources: the
    header row and the data rows of the named sub-table; an error when the
    sheet or the table does not exist. *)
Definition getTableData (name t : string) : io (list row) :=
  with_table name t (λ d i st, (Ret (table_rows i d), st)).

(** Modelled from the spec: [createTable], missing from the sources: a title
    row and the header row below the content of the sheet, one blank row
    apart. *)
Definition createTable (name t : string) (headers : row) : io unit :=
  λ st, match st !! name with
        | Some [] => (Ret (), <[name := [[Some t]; headers]]> st)
        | Some d => (Ret (), <[name := d ++ [[]; [Some t]; headers]]> st)
        | None => (Throw, st)
        end.

Definition insert_at {A} (n : nat) (x : A) (l : list A) : list A :=
  take n l ++ x :: drop n l.

(** Modelled from the spec: [addToTable], missing from the sources: "one row
    per registrant in an event's table", inserted below the table's last
    row. *)
Definition addToTable (name t : string) (r : row) : io unit :=
  with_table name t
    (λ d i st, (Ret (), <[name := insert_at (S i + length (table_rows i d)) r d]> st)).

(** Writing row [p] of a sheet; rows between the data and [p] stay blank. *)
Definition write_row (p : nat) (r : row) (d : sheet) : sheet :=
  if decide (p < length d) then <[p := r]> d
  else d ++ replicate (p - length d) [] ++ [r].

(** Modelled from the spec: [updateTableData], missing from the sources: the
    "row update" of the spec; row 0 of a table is its header row, row 1
    "the first row after headers". *)
Definition updateTableData (name t : string) (k : nat) (r : row) : io unit :=
  with_table name t (λ d i st, (Ret (), <[name := write_row (S i + k) r d]> st)).

(** Modelled from the spec: [deleteTable], missing from the sources: the
    title row and the rows of the table are removed. *)
Definition deleteTable (name t : string) : io unit :=
  with_table name t
    (λ d i st, (Ret (), <[name := take i d ++ drop (S i + length (table_rows i d)) d]> st)).

(** *** What a handler reads from its surroundings *)

Record user : Type := { user_name : cell; user_type : string }.

(** Result of [uploadImage] of [@/lib/github], which is not part of the
    sources at hand either; it is taken as given. *)
Record upload_result : Type := { success : bool; url : cell }.

Record env : Type := {
  session : option user;                              (* getServerSession(authOptions) *)
  now : nat → N;                                      (* the n-th Date.now() of the request *)
  now_iso : string;                                   (* new Date().toISOString() *)
  bcrypt_hash : string → nat → string;                (* bcrypt.hash(password, rounds) *)
  uploadImage : string → string → string → upload_result;
  nextauth_url : cell;                                (* process.env.NEXTAUTH_URL *)
}.

Definition with_session (s : option user) (e : env) : env :=
  {| session := s; now := now e; now_iso := now_iso e; bcrypt_hash := bcrypt_hash e;
     uploadImage := uploadImage e; nextauth_url := nextauth_url e |}.

(** *** Responses *)

Record response : Type := { resp_status : nat; resp_body : json }.

(** [NextResponse.json(body)] *)
Definition json_ok (b : json) : response := {| resp_status := 200; resp_body := b |}.

(** [NextResponse.json({ error: msg }, { status })] *)
Definition json_error (msg : string) (st : nat) : response :=
  {| resp_status := st; resp_body := JObj [("error", JStr msg)] |}.

Definition unauthorized : response := json_error "Unauthorized" 401.

(** [!session || session.user.type !== 'admin'] is false. *)
Definition is_admin (e : env) : bool :=
  match session e with
  | Some u => String.eqb (user_type u) "admin"
  | None => false
  end.

(** [session.user.type !== 'admin' && session.user.name !== companyName] *)
Definition foreign (u : user) (companyName : string) : bool :=
  negb (String.eqb (user_type u) "admin") && negb (seq_str (user_name u) companyName).

(** The upload step shared by the handlers that accept an image:
    [imageUrl] stays [null] unless an image is given and its upload
    succeeds. *)
Definition uploaded (e : env) (fileName : string) (image : cell) (dir : string) : cell :=
  if truthy image then
    let uploadResult := uploadImage e fileName (to_string image) dir in
    if success uploadResult then url uploadResult else None
  else None.

End Sheets.

Export Sheets.

(** ** POST /api/events/register *)

Module Register.

(** The parsed request body; each property is a string or absent. *)
Record body : Type := {
  rawCompanyName : cell;
  eventName : cell;
  name : cell;
  phone : cell;
  email : cell;
  gender : cell;
  college : cell;
  status : cell;
  nationalId : cell;
}.

(** [/^[^\s@]+@[^\s@]+\.[^\s@]+$/] *)
Definition emailRegex : re :=
  let part := Plus (Cls (λ c, negb (is_space c || N.eqb c (byte_of "@")))) in
  Cat part (Cat (Chr "@") (Cat part (Cat (Chr ".") part))).

(** [/^\d{10,15}$/] *)
Definition phoneRegex : re := Rep 10 15 (Cls is_digit).

(** The three validations that precede any access to the store; [None] when
    the request passes them. *)
Definition validate (b : body) (companyName : string) : option response :=
  if negb (truthy (Some companyName)) || negb (truthy (eventName b))
     || negb (truthy (name b)) || negb (truthy (phone b)) || negb (truthy (email b))
     || negb (truthy (gender b)) || negb (truthy (college b))
     || negb (truthy (status b)) || negb (truthy (nationalId b))
  then Some (json_error "All fields are required" 400)
  else if negb (test emailRegex (to_string (email b)))
  then Some (json_error "Invalid email format" 400)
  else if negb (test phoneRegex (to_string (phone b)))
  then Some (json_error "Invalid phone number format" 400)
  else None.

(** [company[5] !== 'false'] *)
Definition isEnabled (company : row) : bool := negb (seq_str (idx company 5) "false").

(** The flag read from "the first row after headers, in the last column";
    a table without such a row counts as enabled. *)
Definition isEventEnabled (tableData : list row) : bool :=
  match tableData !! 1 with
  | Some r1 =>
    if (0 <? length r1)%nat then negb (seq_str (idx r1 (length r1 - 1)) "false") else true
  | None => true
  end.

(** [(row) => row[2] === email || row[1] === phone] *)
Definition same_person (b : body) (r : row) : bool :=
  bool_decide (idx r 2 = email b) || bool_decide (idx r 1 = phone b).

(** The row handed to [addToTable]. *)
Definition registration_row (e : env) (b : body) : row :=
  [name b; phone b; email b; gender b; college b; status b; nationalId b;
   Some (now_iso e); Some ""].

Definition success (e : env) (b : body) : response :=
  json_ok (JObj [("success", JBool true);
                 ("message", JStr "Registration successful");
                 ("registration", JObj [("name", of_cell (name b));
                                        ("email", of_cell (email b));
                                        ("registrationDate", JStr (now_iso e))])]).

(** The innermost [try] block: the event. *)
Definition check_event (e : env) (b : body) (companyName : string) : io response :=
  tableData ← getTableData companyName (to_string (eventName b));
  if (length tableData =? 0)%nat then mret (json_error "Event not found" 404)
  else if negb (isEventEnabled tableData)
  then mret (json_error "Registration has ended for this event" 403)
  else
    let registrationData := drop 1 tableData in
    match List.find (same_person b) registrationData with
    | Some _ => mret (json_error "You are already registered for this event" 400)
    | None =>
      addToTable companyName (to_string (eventName b)) (registration_row e b);;
      mret (success e b)
    end.

(** [companies.find((row) => row[1] === companyName)], header row skipped. *)
Definition find_company (companyName : string) (companiesData : sheet) : option row :=
  let companies := drop 1 companiesData in
  List.find (λ r, seq_str (idx r 1) companyName) companies.

(** The middle [try] block: the company. *)
Definition check_company (e : env) (b : body) (companyName : string) : io response :=
  companiesData ← getSheetData "companies";
  match find_company companyName companiesData with
  | None => mret (json_error "Company not found" 404)
  | Some company =>
    if negb (isEnabled company)
    then mret (json_error "Registration is unavailable for this company" 403)
    else
      sheetData ← getSheetData companyName;
      if (length sheetData =? 0)%nat then mret (json_error "Company not found" 404)
      else try_catch (check_event e b companyName)
                     (mret (json_error "Event not found" 404))
  end.

Definition POST (e : env) (b : body) : store → response * store :=
  match decodeURIComponent (rawCompanyName b) with
  | None => λ st, (json_error "Failed to register for event" 500, st)
  | Some companyName =>
    match validate b companyName with
    | Some r => λ st, (r, st)
    | None =>
      run (try_catch (check_company e b companyName)
                     (mret (json_error "Company not found" 404)))
          (json_error "Failed to register for event" 500)
    end
  end.

End Register.

(** ** /api/companies *)

Module Companies.

Record post_body : Type := {
  name : cell;
  username : cell;
  password : cell;
  image : cell;
}.

Record patch_body : Type := {
  p_id : cell;
  p_name : cell;
  p_username : cell;
  p_password : cell;
  p_image : cell;
  p_enabled : option bool;
}.

Definition company_object (r : row) : json :=
  JObj [("id", of_cell (idx r 0));
        ("name", of_cell (idx r 1));
        ("username", of_cell (idx r 2));
        ("image", of_cell (or_else (idx r 4) None));
        ("enabled", JBool (negb (seq_str (idx r 5) "false")))].

Definition GET (e : env) : store → response * store :=
  if negb (is_admin e) then λ st, (unauthorized, st)
  else
    run (data ← getSheetData "companies";
         mret (json_ok (JObj [("companies", JArr (company_object <$> drop 1 data))])))
        (json_error "Failed to get companies" 500).

Definition header : row :=
  [Some "ID"; Some "Name"; Some "Username"; Some "Password"; Some "Image"].

Definition POST (e : env) (b : post_body) : store → response * store :=
  if negb (is_admin e) then λ st, (unauthorized, st)
  else if negb (truthy (name b)) || negb (truthy (username b)) || negb (truthy (password b))
  then λ st, (json_error "Name, username, and password are required" 400, st)
  else
    run (try_catch (getSheetData "companies";; mret ())
                   (createSheet "companies";; appendToSheet "companies" [header]);;
         existingData ← getSheetData "companies";
         let existingCompanies := drop 1 existingData in
         if existsb (λ r, bool_decide (idx r 2 = username b)) existingCompanies
         then mret (json_error "Username already exists" 400)
         else
           let id := "company_" +:+ pretty (now e 0) in
           let hashedPassword := bcrypt_hash e (to_string (password b)) 10 in
           let imageUrl :=
             uploaded e ("company_" +:+ id +:+ "_" +:+ pretty (now e 1) +:+ ".jpg")
                      (image b) "companies" in
           appendToSheet "companies"
             [[Some id; name b; username b; Some hashedPassword; imageUrl]];;
           createSheet (to_string (name b));;
           mret (json_ok (JObj [("success", JBool true);
                                ("company", JObj [("id", JStr id);
                                                  ("name", of_cell (name b));
                                                  ("username", of_cell (username b));
                                                  ("image", of_cell imageUrl)])])))
        (json_error "Failed to create company" 500).

(** [companies.findIndex((row) => row[0] === id)] *)
Definition findIndex (id : cell) (companies : list row) : option (nat * row) :=
  list_find (λ r : row, idx r 0 = id) companies.

Definition DELETE (nb : numbering) (e : env) (id : cell) : store → response * store :=
  if negb (is_admin e) then λ st, (unauthorized, st)
  else if negb (truthy id)
  then λ st, (json_error "Company ID is required" 400, st)
  else
    run (data ← getSheetData "companies";
         let companies := drop 1 data in
         match findIndex id companies with
         | None => mret (json_error "Company not found" 404)
         | Some (companyIndex, company) =>
           let companyName := idx company 1 in
           deleteRow nb "companies" (companyIndex + 1);;
           mret (json_ok (JObj [("success", JBool true);
                                ("message", JStr ("Company " +:+ to_string companyName
                                                  +:+ " deleted successfully"))]))
         end)
        (json_error "Failed to delete company" 500).

(** The row written back by PATCH. *)
Definition updatedCompany (e : env) (b : patch_body) (company : row) : row :=
  let r1 := if truthy (p_name b) then set_idx 1 (p_name b) company else company in
  let r2 := if truthy (p_username b) then set_idx 2 (p_username b) r1 else r1 in
  let r3 :=
    if truthy (p_password b)
    then set_idx 3 (Some (bcrypt_hash e (to_string (p_password b)) 10)) r2
    else r2 in
  let r4 :=
    if truthy (p_image b) then
      let uploadResult :=
        uploadImage e ("company_" +:+ to_string (p_id b) +:+ "_" +:+ pretty (now e 0) +:+ ".jpg")
                    (to_string (p_image b)) "companies" in
      if success uploadResult then set_idx 4 (url uploadResult) r3 else r3
    else r3 in
  match p_enabled b with
  | Some enabled => set_idx 5 (Some (if enabled then "true" else "false")) r4
  | None => r4
  end.

Definition PATCH (nb : numbering) (e : env) (b : patch_body) : store → response * store :=
  if negb (is_admin e) then λ st, (unauthorized, st)
  else if negb (truthy (p_id b))
  then λ st, (json_error "Company ID is required" 400, st)
  else
    run (data ← getSheetData "companies";
         let companies := drop 1 data in
         match findIndex (p_id b) companies with
         | None => mret (json_error "Company not found" 404)
         | Some (companyIndex, company) =>
           if truthy (p_username b) && negb (bool_decide (p_username b = idx company 2))
              && existsb (λ r, bool_decide (idx r 2 = p_username b)
                               && negb (bool_decide (idx r 0 = p_id b))) companies
           then mret (json_error "Username already exists" 400)
           else
             let updated := updatedCompany e b company in
             deleteRow nb "companies" (companyIndex + 2);;
             appendToSheet "companies" [updated];;
             mret (json_ok (JObj [("success", JBool true);
                                  ("company",
                                   JObj [("id", of_cell (idx updated 0));
                                         ("name", of_cell (idx updated 1));
                                         ("username", of_cell (idx updated 2));
                                         ("image", of_cell (or_else (idx updated 4) None));
                                         ("enabled", JBool (seq_str (idx updated 5) "true"))])]))
         end)
        (json_error "Failed to update company" 500).

End Companies.

(** ** /api/events *)

Module Events.

Record event : Type := {
  id : string;
  image : cell;
  enabled : bool;
  registrations : Z;
}.

Definition event_object (ev : event) : json :=
  JObj [("id", JStr (id ev));
        ("name", JStr (id ev));
        ("image", of_cell (image ev));
        ("enabled", JBool (enabled ev));
        ("registrations", JNum (registrations ev))].

(** One turn of the first loop of GET: row [i] opens a table when it has a
    single, non-empty cell that does not start with "ID". *)
Definition event_at (data : sheet) (i : nat) : list event :=
  match data !! i with
  | Some [c] =>
    if truthy c && negb (startsWith "ID" (to_string c)) then
      let eventName := to_string c in
      let headers := default [] (data !! (i + 1)) in
      let imageIndex := indexOf "Image" headers in
      let imageUrl :=
        match imageIndex, data !! (i + 2) with
        | Some k, Some r => if truthy (idx r k) then idx r k else None
        | _, _ => None
        end in
      let enabledIndex := indexOf "Enabled" headers in
      let enabled :=
        match enabledIndex, data !! (i + 2) with
        | Some k, Some r => negb (seq_str (idx r k) "false")
        | _, _ => true
        end in
      [{| id := eventName; image := imageUrl; enabled := enabled; registrations := 0 |}]
    else []
  | _ => []
  end.

Definition find_events (data : sheet) : list event :=
  seq 0 (length data) ≫= event_at data.

(** The second loop of GET: [event.registrations = Math.max(0,
    eventData.length - 1)]; an event whose table cannot be read keeps 0. *)
Definition count_registrations (companyName : string) (ev : event) : io event :=
  try_catch
    (eventData ← getTableData companyName (id ev);
     mret {| id := id ev; image := image ev; enabled := enabled ev;
             registrations := Z.max 0 (Z.of_nat (length eventData) - 1) |})
    (mret ev).

Fixpoint count_all (companyName : string) (events : list event) : io (list event) :=
  match events with
  | [] => mret []
  | ev :: rest =>
    ev' ← count_registrations companyName ev;
    rest' ← count_all companyName rest;
    mret (ev' :: rest')
  end.

Definition GET (e : env) (rawCompanyName : cell) : store → response * store :=
  match session e with
  | None => λ st, (unauthorized, st)
  | Some u =>
    if negb (truthy rawCompanyName)
    then λ st, (json_error "Company name is required" 400, st)
    else
      match decodeURIComponent rawCompanyName with
      | None => λ st, (json_error "Failed to get events" 500, st)
      | Some companyName =>
        if foreign u companyName
        then λ st, (json_error "Unauthorized to access this company's events" 403, st)
        else
          run (data ← getSheetData companyName;
               events ← count_all companyName (find_events data);
               mret (json_ok (JObj [("events", JArr (event_object <$> events))])))
              (json_error "Failed to get events" 500)
      end
  end.

Record post_body : Type := {
  companyName : cell;
  eventName : cell;
  p_image : cell;
}.

Definition headers : row :=
  [Some "Name"; Some "Phone"; Some "Email"; Some "Gender"; Some "College";
   Some "Status"; Some "National ID"; Some "Registration Date"; Some "Image";
   Some "Enabled"].

(** [row[headers.indexOf(h)] = v]; index -1 leaves the elements alone. *)
Definition set_column (hs : row) (h : string) (v : cell) (r : row) : row :=
  match indexOf h hs with
  | Some k => set_idx k v r
  | None => r
  end.

(** [event_${companyName}_${eventName}_${Date.now()}.jpg] *)
Definition image_name (e : env) (companyName eventName : cell) : string :=
  "event_" +:+ to_string companyName +:+ "_" +:+ to_string eventName +:+ "_"
  +:+ pretty (now e 0) +:+ ".jpg".

(** The first row of a new table: the banner and the enabled flag. *)
Definition firstRow (imageUrl : cell) : row :=
  set_column headers "Enabled" (Some "true")
    (set_column headers "Image" (or_else imageUrl (Some ""))
       (replicate (length headers) (Some ""))).

Definition POST (e : env) (b : post_body) : store → response * store :=
  match session e with
  | None => λ st, (unauthorized, st)
  | Some u =>
    if negb (truthy (companyName b)) || negb (truthy (eventName b))
    then λ st, (json_error "Company name and event name are required" 400, st)
    else if foreign u (to_string (companyName b))
    then λ st, (json_error "Unauthorized to create events for this company" 403, st)
    else
      let imageUrl :=
        uploaded e (image_name e (companyName b) (eventName b)) (p_image b) "events" in
      run (createTable (to_string (companyName b)) (to_string (eventName b)) headers;;
           updateTableData (to_string (companyName b)) (to_string (eventName b)) 1
                           (firstRow imageUrl);;
           mret (json_ok
                   (JObj [("success", JBool true);
                          ("event",
                           JObj [("id", of_cell (eventName b));
                                 ("name", of_cell (eventName b));
                                 ("image", of_cell imageUrl);
                                 ("enabled", JBool true);
                                 ("registrationUrl",
                                  JStr (to_string (nextauth_url e) +:+ "/"
                                        +:+ to_string (companyName b) +:+ "/"
                                        +:+ to_string (eventName b)))])])))
          (json_error "Failed to create event" 500)
  end.

Definition DELETE (e : env) (company ev : cell) : store → response * store :=
  match session e with
  | None => λ st, (unauthorized, st)
  | Some u =>
    if negb (truthy company) || negb (truthy ev)
    then λ st, (json_error "Company name and event name are required" 400, st)
    else if foreign u (to_string company)
    then λ st, (json_error "Unauthorized to delete events for this company" 403, st)
    else
      run (deleteTable (to_string company) (to_string ev);;
           mret (json_ok (JObj [("success", JBool true);
                                ("message", JStr ("Event " +:+ to_string ev
                                                  +:+ " deleted successfully"))])))
          (json_error "Failed to delete event" 500)
  end.

Record patch_body : Type := {
  u_companyName : cell;
  u_eventName : cell;
  u_enabled : option bool;
  u_image : cell;
}.

Definition flag (enabled : bool) : cell := Some (if enabled then "true" else "false").

Definition PATCH (e : env) (b : patch_body) : store → response * store :=
  match session e with
  | None => λ st, (unauthorized, st)
  | Some u =>
    if negb (truthy (u_companyName b)) || negb (truthy (u_eventName b))
    then λ st, (json_error "Company name and event name are required" 400, st)
    else if foreign u (to_string (u_companyName b))
    then λ st, (json_error "Unauthorized to update events for this company" 403, st)
    else
      let cn := to_string (u_companyName b) in
      let en := to_string (u_eventName b) in
      run (tableData ← getTableData cn en;
           match tableData with
           | [] => mret (json_error "Event not found" 404)
           | hs :: _ =>
             let row1 := default (replicate (length hs) (Some "")) (tableData !! 1) in
             let row2 :=
               if truthy (u_image b) then
                 let uploadResult :=
                   uploadImage e (image_name e (u_companyName b) (u_eventName b))
                               (to_string (u_image b)) "events" in
                 if success uploadResult
                 then set_column hs "Image" (url uploadResult) row1
                 else row1
               else row1 in
             let finish (hs' row3 : row) : io response :=
               updateTableData cn en 1 row3;;
               mret (json_ok
                       (JObj [("success", JBool true);
                              ("event",
                               JObj [("id", of_cell (u_eventName b));
                                     ("name", of_cell (u_eventName b));
                                     ("image",
                                      of_cell (or_else (idx_opt row3 (indexOf "Image" hs')) None));
                                     ("enabled",
                                      JBool (seq_str (idx_opt row3 (indexOf "Enabled" hs'))
                                                     "true"))])])) in
             match u_enabled b with
             | None => finish hs row2
             | Some enabled =>
               match indexOf "Enabled" hs with
               | Some k => finish hs (set_idx k (flag enabled) row2)
               | None =>
                 updateTableData cn en 0 (hs ++ [Some "Enabled"]);;
                 finish (hs ++ [Some "Enabled"]) (row2 ++ [flag enabled])
               end
             end
           end)
          (json_error "Failed to update event" 500)
  end.

End Events.

(** ** Sample data: an environment, stores and requests to evaluate the
    handlers on *)

Module Sample.

Definition env0 : env :=
  {| session := None;
     now := λ n, (1700000000000 + N.of_nat n)%N;
     now_iso := "2023-11-14T22:13:20.000Z";
     bcrypt_hash := λ p _, "$2a$10$" +:+ p;
     uploadImage := λ f _ d,
       {| success := true; url := Some ("https://img/" +:+ d +:+ "/" +:+ f) |};
     nextauth_url := Some "http://localhost:3000" |}.

Definition admin : user := {| user_name := Some "Admin"; user_type := "admin" |}.
Definition acme : user := {| user_name := Some "Acme"; user_type := "company" |}.

Definition admin0 : env := with_session (Some admin) env0.
Definition acme0 : env := with_session (Some acme) env0.

Definition companies_header : row := Companies.header.

Definition acme_row (enabled : cell) : row :=
  [Some "company_1"; Some "Acme"; Some "acme"; Some "$2a$10$secret"; None; enabled].

Definition launch_table (enabled : string) : sheet :=
  [[Some "Launch"]; Events.headers;
   [Some ""; Some ""; Some ""; Some ""; Some ""; Some ""; Some ""; Some ""; Some "";
    Some enabled]].

(** One company, Acme, with one event, Launch, and no registrant. *)
Definition shop (company_enabled : cell) (event_enabled : string) : store :=
  {[ "companies" := [companies_header; acme_row company_enabled];
     "Acme" := launch_table event_enabled ]}.

Definition bob (company mail tel : cell) : Register.body :=
  {| Register.rawCompanyName := company; Register.eventName := Some "Launch";
     Register.name := Some "Bob"; Register.phone := tel;
     Register.email := mail; Register.gender := Some "male";
     Register.college := Some "MIT"; Register.status := Some "Student";
     Register.nationalId := Some "29901011234567" |}.

Definition bob_ok : Register.body :=
  bob (Some "Acme") (Some "bob@example.org") (Some "0123456789").

(** A company that is called "undefined", with the same event. *)
Definition odd_shop : store :=
  {[ "companies" := [companies_header;
                     [Some "company_2"; Some "undefined"; Some "undef"; Some "$2a$10$x"]];
     "undefined" := launch_table "true" ]}.

(** Acme's sheet before its first event. *)
Definition fresh : store :=
  {[ "companies" := [companies_header; acme_row None]; "Acme" := [] ]}.

Definition rename (id : cell) (u : string) : Companies.patch_body :=
  {| Companies.p_id := id; Companies.p_name := None; Companies.p_username := Some u;
     Companies.p_password := None; Companies.p_image := None;
     Companies.p_enabled := None |}.

Definition toggle (id : cell) (enabled : bool) : Companies.patch_body :=
  {| Companies.p_id := id; Companies.p_name := None; Companies.p_username := None;
     Companies.p_password := None; Companies.p_image := None;
     Companies.p_enabled := Some enabled |}.

Definition new_company (n u pw : string) : Companies.post_body :=
  {| Companies.name := Some n; Companies.username := Some u;
     Companies.password := Some pw; Companies.image := None |}.

Definition new_event (c ev : string) (img : cell) : Events.post_body :=
  {| Events.companyName := Some c; Events.eventName := Some ev; Events.p_image := img |}.

(** Two companies created one after the other within the same millisecond:
    both requests read the same clock. *)
Definition twins : store :=
  snd (Companies.POST admin0 (new_company "Gamma" "gamma" "pw2")
         (snd (Companies.POST admin0 (new_company "Alpha" "alpha" "pw1") ∅))).

End Sample.

(** ** Signing in ([authOptions]) *)

Module Auth.

(** The credentials of the sign-in form; each is a string or absent. *)
Record credentials : Type := {
  username : cell;
  password : cell;
  type : cell;
}.

(** What [authorize] reads besides the store: the administrator's name and
    password of the process environment, and [bcrypt.compare], which rejects
    ([None]) when the stored hash is not a string. *)
Record config : Type := {
  adminUsername : cell;
  adminPassword : cell;
  compare : string → cell → option bool;
}.

Record account : Type := {
  id : cell;
  name : cell;
  email : cell;
  image : cell;
  kind : string;              (* the property [type] of the user object *)
  enabled : option bool;
}.

(** [authorize] returns a user, returns [null], or throws; the error thrown
    for a disabled company carries a message. *)
Inductive result : Type :=
| Granted (u : account)
| Null
| Thrown (message : option string).

Definition disabled_message : string :=
  "Company account is disabled. Please contact the administrator.".

Definition administrator : account :=
  {| id := Some "admin"; name := Some "Admin"; email := Some "admin@example.com";
     image := None; kind := "admin"; enabled := None |}.

Definition authorize (cfg : config) (credentials : option credentials) (st : store)
  : result :=
  match credentials with
  | None => Null
  | Some c =>
    if negb (truthy (username c)) || negb (truthy (password c)) || negb (truthy (type c))
    then Null
    else if seq_str (type c) "admin" then
      if bool_decide (username c = adminUsername cfg)
         && bool_decide (password c = adminPassword cfg)
      then Granted administrator
      else Null
    else if seq_str (type c) "company" then
      match getSheetData "companies" st with
      | (Throw, _) => Thrown None
      | (Ret companies, _) =>
        let companyData := drop 1 companies in
        match List.find (λ r, bool_decide (idx r 2 = username c)) companyData with
        | None => Null
        | Some company =>
          let isEnabled := negb (seq_str (idx company 5) "false") in
          if negb isEnabled then Thrown (Some disabled_message)
          else
            match compare cfg (to_string (password c)) (idx company 3) with
            | None => Thrown None
            | Some true =>
              Granted {| id := idx company 0; name := idx company 1; email := None;
                         image := or_else (idx company 4) None; kind := "company";
                         enabled := Some isEnabled |}
            | Some false => Null
            end
        end
      end
    else Null
  end.

(** The token and the session of the two callbacks, with the properties the
    callbacks read or write. *)
Record token : Type := {
  t_id : cell;
  t_type : cell;
  picture : cell;
  t_enabled : option bool;
}.

Record session_user : Type := {
  s_id : cell;
  s_type : cell;
  s_image : cell;
  s_enabled : option bool;
}.

(** [callbacks.jwt({ token, user })]; [user] is given at sign-in only. *)
Definition jwt (tk : token) (user : option account) : token :=
  match user with
  | Some u =>
    {| t_id := id u;
       t_type := Some (kind u);
       picture := if truthy (image u) then image u else picture tk;
       t_enabled := match enabled u with Some b => Some b | None => t_enabled tk end |}
  | None => tk
  end.

(** [callbacks.session({ session, token })] *)
Definition session_of (s : session_user) (tk : token) : session_user :=
  {| s_id := t_id tk;
     s_type := t_type tk;
     s_image := if truthy (picture tk) then picture tk else s_image s;
     s_enabled := match t_enabled tk with Some b => Some b | None => s_enabled s end |}.

End Auth.

(** ** Further sample data *)

Module Cases.

Definition cfg0 : Auth.config :=
  {| Auth.adminUsername := Some "root"; Auth.adminPassword := Some "toor";
     Auth.compare := λ pw h, match h with
                             | Some hash => Some (String.eqb hash ("$2a$10$" +:+ pw))
                             | None => None
                             end |}.

Definition login (u pw ty : string) : option Auth.credentials :=
  Some {| Auth.username := Some u; Auth.password := Some pw; Auth.type := Some ty |}.

(** Two companies, each with its sheet; Acme has the event Launch. *)
Definition two : store :=
  {[ "companies" := [Companies.header;
                     [Some "company_1"; Some "Acme"; Some "acme"; Some "$2a$10$secret"; None];
                     [Some "company_2"; Some "Beta"; Some "beta"; Some "$2a$10$other"; None]];
     "Acme" := Sample.launch_table "true";
     "Beta" := [] ]}.

(** Acme with the event Launch switched off and one registrant. *)
Definition alice_row : row :=
  [Some "Alice"; Some "01234567890"; Some "alice@example.org"; Some "female";
   Some "MIT"; Some "Student"; Some "29901011234568";
   Some "2023-11-01T10:00:00.000Z"; Some ""].

Definition busy : store :=
  {[ "companies" := [Sample.companies_header; Sample.acme_row None];
     "Acme" := Sample.launch_table "false" ++ [alice_row] ]}.

Definition set_event (c ev : string) (on : bool) : Events.patch_body :=
  {| Events.u_companyName := Some c; Events.u_eventName := Some ev;
     Events.u_enabled := Some on; Events.u_image := None |}.

End Cases.

(** ** Vocabulary of the statements *)

(** The row that POST appends for a request. *)
Definition posted_row (e : env) (b : Companies.post_body) : row :=
  let id := "company_" +:+ pretty (now e 0) in
  [Some id; Companies.name b; Companies.username b;
   Some (bcrypt_hash e (to_string (Companies.password b)) 10);
   uploaded e ("company_" +:+ id +:+ "_" +:+ pretty (now e 1) +:+ ".jpg")
            (Companies.image b) "companies"].

(** The companies sheet as POST sees it after making sure that it exists. *)
Definition companies_or_new (st : store) : sheet :=
  default [Companies.header] (st !! "companies").

(** Two rows that differ at most in the password cell, column 3. *)
Definition rows_agree (r1 r2 : row) : Prop := ∀ i, i ≠ 3 → idx r1 i = idx r2 i.

(** The sheet after [createTable] and the first [updateTableData]. *)
Definition with_new_table (d : sheet) (t : string) (hs r1 : row) : sheet :=
  match d with
  | [] => [[Some t]; hs; r1]
  | _ => d ++ [[]; [Some t]; hs; r1]
  end.

(** The username check of PATCH. *)
Definition username_taken (b : Companies.patch_body) (company : row)
    (companies : list row) : bool :=
  truthy (Companies.p_username b)
  && negb (bool_decide (Companies.p_username b = idx company 2))
  && existsb (λ r, bool_decide (idx r 2 = Companies.p_username b)
                   && negb (bool_decide (idx r 0 = Companies.p_id b))) companies.

(** The company rows of the companies table: everything below row 0. *)
Definition company_rows (st : store) : list row := drop 1 (default [] (st !! "companies")).

Definition usernames (st : store) : list cell := (λ r, idx r 2) <$> company_rows st.
Definition ids (st : store) : list cell := (λ r, idx r 0) <$> company_rows st.

(** ** Properties *)

(** *** Sessions *)

Section Sessions.

Variable e : env.
Variable st : store.

Lemma companies_require_admin (nb : numbering) (b : Companies.post_body)
    (id : cell) (pb : Companies.patch_body) :
  is_admin e = false →
  Companies.GET e st = (unauthorized, st)
  ∧ Companies.POST e b st = (unauthorized, st)
  ∧ Companies.DELETE nb e id st = (unauthorized, st)
  ∧ Companies.PATCH nb e pb st = (unauthorized, st).
Proof.
  intros Hadm.
  unfold Companies.GET, Companies.POST, Companies.DELETE, Companies.PATCH.
  rewrite Hadm. simpl. done.
Qed.

Lemma events_require_session (raw company ev : cell) (b : Events.post_body)
    (pb : Events.patch_body) :
  session e = None →
  Events.GET e raw st = (unauthorized, st)
  ∧ Events.POST e b st = (unauthorized, st)
  ∧ Events.DELETE e company ev st = (unauthorized, st)
  ∧ Events.PATCH e pb st = (unauthorized, st).
Proof.
  intros Hs. unfold Events.GET, Events.POST, Events.DELETE, Events.PATCH.
  rewrite Hs. done.
Qed.

Lemma no_session_no_admin : session e = None → is_admin e = false.
Proof. unfold is_admin. by intros ->. Qed.

Lemma other_type_no_admin (u : user) :
  session e = Some u → user_type u ≠ "admin" → is_admin e = false.
Proof.
  unfold is_admin. intros -> Hty.
  destruct (String.eqb_spec (user_type u) "admin"); congruence.
Qed.

(** The registration handler never consults the session. *)
Lemma register_ignores_session (s : option user) (b : Register.body) :
  Register.POST (with_session s e) b st = Register.POST e b st.
Proof. reflexivity. Qed.

End Sessions.

(** C5. Without a session the four /api/companies handlers and the four
    /api/events handlers answer 401 'Unauthorized' and leave the store as it
    was; the /api/companies handlers do the same for a session whose user
    type is not 'admin'; the registration handler answers the same whatever
    the session, and registers a participant without one. *)
Theorem C5_session_gate (e : env) (st : store) (nb : numbering)
    (cb : Companies.post_body) (id : cell) (cpb : Companies.patch_body)
    (raw company ev : cell) (eb : Events.post_body) (epb : Events.patch_body)
    (rb : Register.body) (u : user) :
  user_type u ≠ "admin" →
  let anon := with_session None e in
  let other := with_session (Some u) e in
  resp_status unauthorized = 401
  ∧ (Companies.GET anon st = (unauthorized, st)
     ∧ Companies.POST anon cb st = (unauthorized, st)
     ∧ Companies.DELETE nb anon id st = (unauthorized, st)
     ∧ Companies.PATCH nb anon cpb st = (unauthorized, st))
  ∧ (Events.GET anon raw st = (unauthorized, st)
     ∧ Events.POST anon eb st = (unauthorized, st)
     ∧ Events.DELETE anon company ev st = (unauthorized, st)
     ∧ Events.PATCH anon epb st = (unauthorized, st))
  ∧ (Companies.GET other st = (unauthorized, st)
     ∧ Companies.POST other cb st = (unauthorized, st)
     ∧ Companies.DELETE nb other id st = (unauthorized, st)
     ∧ Companies.PATCH nb other cpb st = (unauthorized, st))
  ∧ (∀ s, Register.POST (with_session s e) rb st = Register.POST e rb st)
  ∧ resp_status (fst (Register.POST anon Sample.bob_ok (Sample.shop None "true"))) = 200.
Proof.
  intros Hty anon other.
  split; [reflexivity|].
  split; [by apply companies_require_admin|].
  split; [by apply events_require_session|].
  split; [by apply companies_require_admin, (other_type_no_admin _ u)|].
  split; reflexivity.
Qed.

Lemma C5_session_gate_witness :
  Companies.GET Sample.acme0 (Sample.shop None "true")
  = (unauthorized, Sample.shop None "true").
Proof.
  refine (proj1 (proj1 (proj2 (proj2 (proj2
    (C5_session_gate Sample.env0 (Sample.shop None "true") FromOne
       (Sample.new_company "Beta" "beta" "pw") (Some "company_1")
       (Sample.toggle (Some "company_1") false) (Some "Acme") (Some "Acme")
       (Some "Launch") (Sample.new_event "Acme" "Next" None)
       {| Events.u_companyName := Some "Acme"; Events.u_eventName := Some "Launch";
          Events.u_enabled := Some false; Events.u_image := None |}
       Sample.bob_ok Sample.acme _)))))).
  discriminate.
Defined.

(** *** The primitives on examples *)

Example decode_escape : decodeURIComponent (Some "Acme%20Corp") = Some "Acme Corp".
Proof. reflexivity. Qed.

Example decode_undefined : decodeURIComponent None = Some "undefined".
Proof. reflexivity. Qed.

Example decode_malformed : decodeURIComponent (Some "100%") = None.
Proof. reflexivity. Qed.

Example decode_multibyte :
  codepoints <$> decodeURIComponent (Some "caf%C3%A9") = Some [99; 97; 102; 233]%N.
Proof. reflexivity. Qed.

Example decode_overlong : decodeURIComponent (Some "%C0%80") = None.
Proof. reflexivity. Qed.

Example email_accepted : test Register.emailRegex "bob@example.org" = true.
Proof. reflexivity. Qed.

Example email_without_dot : test Register.emailRegex "bob@example" = false.
Proof. reflexivity. Qed.

Example email_with_space : test Register.emailRegex "bob smith@example.org" = false.
Proof. reflexivity. Qed.

Example email_two_ats : test Register.emailRegex "bob@home@example.org" = false.
Proof. reflexivity. Qed.

Example phone_accepted : test Register.phoneRegex "0123456789" = true.
Proof. reflexivity. Qed.

Example phone_short : test Register.phoneRegex "012345678" = false.
Proof. reflexivity. Qed.

Example phone_long : test Register.phoneRegex "0123456789012345" = false.
Proof. reflexivity. Qed.

Example phone_letters : test Register.phoneRegex "01234-56789" = false.
Proof. reflexivity. Qed.

Example set_idx_extends : set_idx 5 (Some "true") [Some "a"; Some "b"; Some "c"]
  = [Some "a"; Some "b"; Some "c"; None; None; Some "true"].
Proof. reflexivity. Qed.

(** *** Patterns *)

Section Patterns.

Local Hint Constructors lang : core.

Lemma nullable_lang (r : re) : nullable r = true ↔ lang r [].
Proof.
  induction r as [| |p|r1 IH1 r2 IH2|r1 IH1 r2 IH2|r IH]; simpl.
  - split; [done|inversion 1].
  - split; auto.
  - split; [done|inversion 1].
  - rewrite andb_true_iff, IH1, IH2. split.
    + intros [H1 H2]. change (@nil N) with (@nil N ++ []). auto.
    + intros H. inv H.
      match goal with E : _ ++ _ = [] |- _ => apply app_eq_nil in E as [-> ->] end.
      auto.
  - rewrite orb_true_iff, IH1, IH2. split.
    + intros [?|?]; auto.
    + intros H. inv H; auto.
  - split; auto.
Qed.

Lemma lang_Star_cons (r : re) (c : N) (s : list N) :
  lang (Star r) (c :: s) →
  ∃ s1 s2, s = s1 ++ s2 ∧ lang r (c :: s1) ∧ lang (Star r) s2.
Proof.
  intros H. remember (Star r) as r' eqn:Hr. remember (c :: s) as w eqn:Hw.
  revert Hr Hw.
  induction H as [| | | | | |r0 s1 s2 H1 _ H2 IH2]; try discriminate.
  intros [= ->] Hw. destruct s1 as [|c1 s1]; simpl in Hw.
  - by apply IH2.
  - simplify_eq. eauto.
Qed.

Lemma lang_Cat_cons (r1 r2 : re) (c : N) (s : list N) :
  lang (Cat r1 r2) (c :: s) ↔
  (∃ s1 s2, s = s1 ++ s2 ∧ lang r1 (c :: s1) ∧ lang r2 s2)
  ∨ (lang r1 [] ∧ lang r2 (c :: s)).
Proof.
  split.
  - intros H. inv H.
    match goal with E : ?s1 ++ _ = _ :: _ |- _ => destruct s1 as [|c1 s1]; simpl in E end.
    + subst. auto.
    + simplify_eq. left. eauto.
  - intros [(s1 & s2 & -> & H1 & H2)|[H1 H2]].
    + change (c :: s1 ++ s2) with ((c :: s1) ++ s2). auto.
    + change (c :: s) with ([] ++ c :: s). auto.
Qed.

Lemma deriv_lang (c : N) (r : re) (s : list N) :
  lang (deriv c r) s ↔ lang r (c :: s).
Proof.
  revert s. induction r as [| |p|r1 IH1 r2 IH2|r1 IH1 r2 IH2|r IH]; intros s; simpl.
  - split; inversion 1.
  - split; inversion 1.
  - destruct (p c) eqn:Hp; split; intros H; inv H; auto; congruence.
  - assert (lang (Cat (deriv c r1) r2) s ↔
            ∃ s1 s2, s = s1 ++ s2 ∧ lang r1 (c :: s1) ∧ lang r2 s2) as Hcat.
    { split.
      - intros H. inv H. eexists _, _. split; [done|]. split; [by apply IH1|done].
      - intros (s1 & s2 & -> & H1 & H2). apply IH1 in H1. auto. }
    rewrite lang_Cat_cons. destruct (nullable r1) eqn:Hn.
    + apply nullable_lang in Hn. split.
      * intros H. inv H; [left; by apply Hcat|right; split; [done|by apply IH2]].
      * intros [H|[_ H]]; [apply lang_Alt_l; by apply Hcat|apply lang_Alt_r; by apply IH2].
    + rewrite Hcat. split; [auto|]. intros [H|[H _]]; [done|].
      apply nullable_lang in H. congruence.
  - split; intros H; inv H;
      solve [apply lang_Alt_l; by apply IH1 | apply lang_Alt_r; by apply IH2].
  - split.
    + intros H. inv H.
      match goal with H1 : lang (deriv c r) _ |- _ => apply IH in H1 end.
      match goal with |- lang _ (c :: ?s1 ++ ?s2) =>
        change (c :: s1 ++ s2) with ((c :: s1) ++ s2) end. auto.
    + intros (s1 & s2 & -> & H1 & H2)%lang_Star_cons. apply IH in H1. auto.
Qed.

(** The matcher decides membership. *)
Lemma matches_lang (r : re) (s : list N) : matches r s = true ↔ lang r s.
Proof.
  revert r. induction s as [|c s IH]; intros r; simpl.
  - apply nullable_lang.
  - rewrite IH. apply deriv_lang.
Qed.

Lemma lang_Cls_inv (p : N → bool) (s : list N) :
  lang (Cls p) s → ∃ c, s = [c] ∧ p c = true.
Proof. intros H. inv H. eauto. Qed.

Lemma lang_Cat_inv (r1 r2 : re) (s : list N) :
  lang (Cat r1 r2) s → ∃ s1 s2, s = s1 ++ s2 ∧ lang r1 s1 ∧ lang r2 s2.
Proof. intros H. inv H. eauto. Qed.

Lemma lang_Times (p : N → bool) (n : nat) (s : list N) :
  lang (Times n (Cls p)) s ↔ length s = n ∧ Forall (λ c, p c = true) s.
Proof.
  revert s. induction n as [|n IH]; intros s; simpl.
  - split.
    + intros H. inv H. auto.
    + intros [->%nil_length_inv _]. auto.
  - split.
    + intros (s1 & s2 & -> & (c & -> & Hc)%lang_Cls_inv & [<- ?]%IH)%lang_Cat_inv.
      simpl. auto.
    + destruct s as [|c s]; [by intros [? _]|]. intros [[= Hl] [Hc Hs]%Forall_cons].
      change (c :: s) with ([c] ++ s). constructor; [auto|]. by apply IH.
Qed.

Lemma lang_UpTo (p : N → bool) (n : nat) (s : list N) :
  lang (UpTo n (Cls p)) s ↔ length s ≤ n ∧ Forall (λ c, p c = true) s.
Proof.
  revert s. induction n as [|n IH]; intros s; simpl.
  - split.
    + intros H. inv H. auto.
    + intros [Hl _]. destruct s; [auto|simpl in Hl; lia].
  - split.
    + intros H. inv H.
      * match goal with H1 : lang Eps _ |- _ => inv H1 end. simpl. split; [lia|auto].
      * match goal with H1 : lang (Cat _ _) _ |- _ =>
          apply lang_Cat_inv in H1
            as (s1 & s2 & -> & (c & -> & Hc)%lang_Cls_inv & [? ?]%IH) end.
        simpl. split; [lia|auto].
    + destruct s as [|c s]; [auto|]. intros [Hl [Hc Hs]%Forall_cons]. simpl in Hl.
      apply lang_Alt_r. change (c :: s) with ([c] ++ s). constructor; [auto|].
      apply IH. split; [lia|done].
Qed.

Lemma lang_Rep (p : N → bool) (lo hi : nat) (s : list N) :
  lo ≤ hi →
  lang (Rep lo hi (Cls p)) s ↔ (lo ≤ length s ≤ hi) ∧ Forall (λ c, p c = true) s.
Proof.
  intros Hle. unfold Rep. split.
  - intros (s1 & s2 & -> & [H1 ?]%lang_Times & [H2 ?]%lang_UpTo)%lang_Cat_inv.
    rewrite length_app. split; [lia|]. by apply Forall_app.
  - intros [Hl Hs]. rewrite <- (take_drop lo s). constructor.
    + apply lang_Times. split; [rewrite length_take; lia|by apply Forall_take].
    + apply lang_UpTo. split; [rewrite length_drop; lia|by apply Forall_drop].
Qed.

Lemma lang_Star_Cls (p : N → bool) (s : list N) :
  lang (Star (Cls p)) s ↔ Forall (λ c, p c = true) s.
Proof.
  split.
  - intros H. remember (Star (Cls p)) as r eqn:Hr. revert Hr.
    induction H as [| | | | | |r0 s1 s2 H1 _ H2 IH2]; try discriminate; [auto|].
    intros [= ->]. apply lang_Cls_inv in H1 as (c & -> & Hc). simpl. auto.
  - induction 1 as [|c w Hc _ IH]; [auto|].
    change (c :: w) with ([c] ++ w). auto.
Qed.

Lemma lang_Plus (p : N → bool) (s : list N) :
  lang (Plus (Cls p)) s ↔ s ≠ [] ∧ Forall (λ c, p c = true) s.
Proof.
  unfold Plus. split.
  - intros (s1 & s2 & -> & (c & -> & Hc)%lang_Cls_inv & H2%lang_Star_Cls)%lang_Cat_inv.
    simpl. auto.
  - destruct s as [|c s]; [by intros [? _]|]. intros [_ [Hc Hs]%Forall_cons].
    change (c :: s) with ([c] ++ s). constructor; [auto|by apply lang_Star_Cls].
Qed.

End Patterns.

(** X1. The telephone pattern accepts the strings of 10 to 15 decimal digits. *)
Lemma phoneRegex_digits (s : string) :
  test Register.phoneRegex s = true
  ↔ (10 ≤ length (utf16 s) ≤ 15) ∧ Forall (λ c, is_digit c = true) (utf16 s).
Proof.
  unfold test, Register.phoneRegex. rewrite matches_lang. apply lang_Rep. lia.
Qed.

(** X2. The e-mail pattern accepts the strings [a@b.c] in which [a], [b] and
    [c] are non-empty and hold neither white space nor "@". *)
Lemma emailRegex_parts (s : string) :
  let ok := λ c, negb (is_space c || N.eqb c 64) = true in
  test Register.emailRegex s = true
  ↔ ∃ a b c, utf16 s = a ++ [64%N] ++ b ++ [46%N] ++ c
             ∧ (a ≠ [] ∧ Forall ok a) ∧ (b ≠ [] ∧ Forall ok b)
             ∧ (c ≠ [] ∧ Forall ok c).
Proof.
  intros ok. unfold test, Register.emailRegex. rewrite matches_lang. split.
  - intros (a & s1 & -> & Ha%lang_Plus
            & (at_ & s2 & -> & (x & -> & Hx%N.eqb_eq)%lang_Cls_inv
               & (b & s3 & -> & Hb%lang_Plus
                  & (dot & c & -> & (y & -> & Hy%N.eqb_eq)%lang_Cls_inv
                     & Hc%lang_Plus)%lang_Cat_inv)%lang_Cat_inv)%lang_Cat_inv)%lang_Cat_inv.
    subst x y. exists a, b, c. done.
  - intros (a & b & c & -> & Ha & Hb & Hc).
    apply lang_Plus in Ha, Hb, Hc.
    constructor; [done|]. constructor; [by constructor|].
    constructor; [done|]. constructor; [by constructor|done].
Qed.

(** *** Sequencing *)

Lemma bind_Ret {A B} (m : io A) (k : A → io B) (st st' : store) (a : A) :
  m st = (Ret a, st') → (m ≫= k) st = k a st'.
Proof. unfold mbind, io_bind, bind. by intros ->. Qed.

Lemma bind_Throw {A B} (m : io A) (k : A → io B) (st st' : store) :
  m st = (Throw, st') → (m ≫= k) st = (Throw, st').
Proof. unfold mbind, io_bind, bind. by intros ->. Qed.

Lemma bind_assoc {A B C} (m : io A) (f : A → io B) (g : B → io C) (st : store) :
  (m ≫= λ a, f a ≫= g) st = ((m ≫= f) ≫= g) st.
Proof.
  unfold mbind, io_bind, bind. by destruct (m st) as [[a|] st'].
Qed.

Lemma run_Ret {A} (m : io A) (r a : A) (st st' : store) :
  m st = (Ret a, st') → run m r st = (a, st').
Proof. unfold run. by intros ->. Qed.

Lemma run_Throw {A} (m : io A) (r : A) (st st' : store) :
  m st = (Throw, st') → run m r st = (r, st').
Proof. unfold run. by intros ->. Qed.

(** *** Lists and tables *)

Section Lists.

Context {A : Type}.

Lemma take_while_insert_end (p : A → bool) (x : A) (l : list A) :
  p x = true →
  take_while p (insert_at (length (take_while p l)) x l) = take_while p l ++ [x].
Proof.
  intros Hx. induction l as [|y l IH]; simpl.
  - unfold insert_at. simpl. by rewrite Hx.
  - destruct (p y) eqn:Hy; simpl.
    + unfold insert_at in *. simpl. rewrite Hy. by rewrite IH.
    + unfold insert_at. simpl. by rewrite Hx, Hy.
Qed.

Lemma drop_insert_at (k m : nat) (x : A) (l : list A) :
  k ≤ length l → drop k (insert_at (k + m) x l) = insert_at m x (drop k l).
Proof.
  revert l. induction k as [|k IH]; intros l Hk; [done|].
  destruct l as [|y l]; simpl in *; [lia|].
  unfold insert_at in *. simpl. apply IH. lia.
Qed.

Lemma list_find_insert_at (P : A → Prop) `{!∀ x, Decision (P x)}
    (l : list A) (i n : nat) (x y : A) :
  list_find P l = Some (i, x) → i < n →
  list_find P (insert_at n y l) = Some (i, x).
Proof.
  revert i n. induction l as [|z l IH]; intros i n Hf Hi; [done|].
  destruct n as [|n]; [lia|].
  unfold insert_at in *. simpl in *.
  destruct (decide (P z)); [done|].
  destruct (list_find P l) as [[j w]|] eqn:Hl; simpl in Hf; [|done].
  injection Hf as <- <-.
  rewrite (IH j n) by (done || lia). done.
Qed.

Lemma find_None_Forall (p : A → bool) (l : list A) :
  List.find p l = None ↔ Forall (λ x, p x = false) l.
Proof.
  induction l as [|x l IH]; simpl.
  - split; [constructor|done].
  - destruct (p x) eqn:Hx.
    + split; [done|]. intros H. inversion H; congruence.
    + rewrite IH. split; [by constructor|by inversion 1].
Qed.

Lemma find_Some_Exists (p : A → bool) (l : list A) :
  Exists (λ x, p x = true) l → is_Some (List.find p l).
Proof.
  intros Hex. destruct (List.find p l) eqn:Hf; [eauto|].
  apply find_None_Forall in Hf. apply Exists_exists in Hex as (x & Hin & Hx).
  rewrite Forall_forall in Hf. specialize (Hf x Hin). congruence.
Qed.

End Lists.

Lemma table_start_lt (t : string) (d : sheet) (i : nat) :
  table_start t d = Some i → i < length d.
Proof.
  unfold table_start. destruct (list_find _ d) as [[j r]|] eqn:Hf; [|done].
  intros [= <-]. apply list_find_Some in Hf as (Hl & _). by eapply lookup_lt_Some.
Qed.

(** Adding a non-blank row to a table leaves its title where it is and
    extends its rows by that row. *)
Lemma table_insert (t : string) (d : sheet) (i : nat) (r : row) :
  table_start t d = Some i →
  is_blank r = false →
  let d' := insert_at (S i + length (table_rows i d)) r d in
  table_start t d' = Some i ∧ table_rows i d' = table_rows i d ++ [r].
Proof.
  intros Hs Hr d'. split.
  - unfold table_start in *.
    destruct (list_find _ d) as [[j w]|] eqn:Hf; simplify_eq/=.
    unfold d'. erewrite list_find_insert_at; [done..|lia].
  - unfold d', table_rows.
    rewrite drop_insert_at by (apply table_start_lt in Hs; lia).
    apply take_while_insert_end. by rewrite Hr.
Qed.

(** *** Registration *)

(** A request that passes the validations carries all nine fields, an
    e-mail address that matches the e-mail pattern and a telephone number
    that matches the telephone pattern. *)
Lemma validate_None_fields (b : Register.body) (companyName : string) :
  Register.validate b companyName = None →
  companyName ≠ ""
  ∧ truthy (Register.eventName b) = true
  ∧ truthy (Register.name b) = true
  ∧ truthy (Register.phone b) = true
  ∧ truthy (Register.email b) = true
  ∧ truthy (Register.gender b) = true
  ∧ truthy (Register.college b) = true
  ∧ truthy (Register.status b) = true
  ∧ truthy (Register.nationalId b) = true
  ∧ test Register.emailRegex (to_string (Register.email b)) = true
  ∧ test Register.phoneRegex (to_string (Register.phone b)) = true.
Proof.
  unfold Register.validate. cbn [truthy].
  destruct (String.eqb_spec companyName ""); [done|].
  destruct (truthy (Register.eventName b)); [|done].
  destruct (truthy (Register.name b)); [|done].
  destruct (truthy (Register.phone b)); [|done].
  destruct (truthy (Register.email b)); [|done].
  destruct (truthy (Register.gender b)); [|done].
  destruct (truthy (Register.college b)); [|done].
  destruct (truthy (Register.status b)); [|done].
  destruct (truthy (Register.nationalId b)); [|done].
  cbn [negb orb].
  destruct (test Register.emailRegex _); [|done].
  destruct (test Register.phoneRegex _); [|done].
  done.
Qed.

(** A request that fails a validation is answered 400 before the store is
    looked at. *)
Lemma validate_Some_400 (b : Register.body) (companyName : string) (r : response) :
  Register.validate b companyName = Some r → resp_status r = 400.
Proof.
  unfold Register.validate.
  repeat (match goal with |- context [if ?c then _ else _] => destruct c end);
    by intros [= <-].
Qed.

Lemma POST_invalid (e : env) (b : Register.body) (st : store)
    (companyName : string) (r : response) :
  decodeURIComponent (Register.rawCompanyName b) = Some companyName →
  Register.validate b companyName = Some r →
  Register.POST e b st = (r, st) ∧ resp_status r = 400.
Proof.
  intros Hd Hv. split; [|by eapply validate_Some_400].
  unfold Register.POST. by rewrite Hd, Hv.
Qed.

(** X26. The part of the validations that works: whenever the company name
    decodes, a request that lacks one of the other eight fields, has an empty
    company name, or fails one of the two patterns is answered 400 and the
    store is not touched. *)
Lemma POST_rejects_invalid (e : env) (b : Register.body) (st : store)
    (companyName : string) :
  decodeURIComponent (Register.rawCompanyName b) = Some companyName →
  companyName = ""
  ∨ truthy (Register.eventName b) = false ∨ truthy (Register.name b) = false
  ∨ truthy (Register.phone b) = false ∨ truthy (Register.email b) = false
  ∨ truthy (Register.gender b) = false ∨ truthy (Register.college b) = false
  ∨ truthy (Register.status b) = false ∨ truthy (Register.nationalId b) = false
  ∨ test Register.emailRegex (to_string (Register.email b)) = false
  ∨ test Register.phoneRegex (to_string (Register.phone b)) = false →
  resp_status (fst (Register.POST e b st)) = 400
  ∧ snd (Register.POST e b st) = st.
Proof.
  intros Hd Hbad.
  destruct (Register.validate b companyName) as [r|] eqn:Hv.
  - destruct (POST_invalid e b st companyName r Hd Hv) as [-> Hr]. done.
  - apply validate_None_fields in Hv. destruct_and!. destruct_or!; congruence.
Qed.

Section Registration.

Import Register.

Variable e : env.
Variable b : body.
Variable st : store.
Variable companyName : string.

Hypothesis decoded : decodeURIComponent (rawCompanyName b) = Some companyName.
Hypothesis valid : validate b companyName = None.

Lemma POST_valid :
  POST e b st
  = run (try_catch (check_company e b companyName)
                   (mret (json_error "Company not found" 404)))
        (json_error "Failed to register for event" 500) st.
Proof using decoded valid. unfold POST. by rewrite decoded, valid. Qed.

Variable companiesData : sheet.
Variable company : row.

Hypothesis companies_sheet : st !! "companies" = Some companiesData.
Hypothesis company_found : find_company companyName companiesData = Some company.

Lemma POST_company_disabled :
  idx company 5 = Some "false" →
  POST e b st = (json_error "Registration is unavailable for this company" 403, st).
Proof using All.
  intros Hoff. rewrite POST_valid.
  unfold run, try_catch, check_company, mbind, io_bind, bind, getSheetData.
  rewrite companies_sheet, company_found.
  unfold isEnabled, seq_str. rewrite Hoff. reflexivity.
Qed.

Variable sheetData : sheet.
Variable i : nat.

Hypothesis company_enabled : idx company 5 ≠ Some "false".
Hypothesis company_sheet : st !! companyName = Some sheetData.
Hypothesis event_found : table_start (to_string (eventName b)) sheetData = Some i.
Hypothesis event_rows : table_rows i sheetData ≠ [].

Lemma POST_event :
  POST e b st
  = run (try_catch (check_event e b companyName)
                   (mret (json_error "Event not found" 404)))
        (json_error "Failed to register for event" 500) st.
Proof using All.
  rewrite POST_valid.
  unfold run, try_catch, check_company, mbind, io_bind, bind, getSheetData.
  rewrite companies_sheet, company_found.
  unfold isEnabled, seq_str. rewrite bool_decide_eq_false_2 by done. simpl.
  rewrite company_sheet.
  destruct sheetData as [|r0 rest] eqn:Hd.
  { by apply table_start_lt in event_found. }
  simpl. unfold try_catch.
  by destruct (check_event e b companyName st) as [[r|] st'].
Qed.

Lemma getTableData_found :
  getTableData companyName (to_string (eventName b)) st
  = (Ret (table_rows i sheetData), st).
Proof using company_sheet event_found.
  unfold getTableData, with_table. by rewrite company_sheet, event_found.
Qed.

Lemma POST_event_found :
  POST e b st
  = run (if negb (isEventEnabled (table_rows i sheetData))
         then mret (json_error "Registration has ended for this event" 403)
         else
           match List.find (same_person b) (drop 1 (table_rows i sheetData)) with
           | Some _ => mret (json_error "You are already registered for this event" 400)
           | None =>
             addToTable companyName (to_string (eventName b)) (registration_row e b);;
             mret (success e b)
           end)
        (json_error "Event not found" 404) st.
Proof using All.
  rewrite POST_event.
  unfold run, try_catch, check_event, mbind, io_bind, bind.
  rewrite getTableData_found.
  assert ((length (table_rows i sheetData) =? 0) = false) as ->.
  { apply Nat.eqb_neq. by destruct (table_rows i sheetData). }
  destruct (isEventEnabled (table_rows i sheetData)); simpl; [|done].
  destruct (List.find _ _); [done|].
  unfold addToTable, with_table. by rewrite company_sheet, event_found.
Qed.

Lemma POST_event_disabled (r1 : row) :
  table_rows i sheetData !! 1 = Some r1 →
  r1 ≠ [] →
  idx r1 (length r1 - 1) = Some "false" →
  POST e b st = (json_error "Registration has ended for this event" 403, st).
Proof using All.
  intros H1 Hne Hoff. rewrite POST_event_found.
  unfold isEventEnabled. rewrite H1.
  destruct r1 as [|c r1]; [done|].
  unfold seq_str. rewrite Hoff. reflexivity.
Qed.

Hypothesis event_enabled : isEventEnabled (table_rows i sheetData) = true.

Lemma POST_duplicate :
  (∃ r, r ∈ drop 1 (table_rows i sheetData)
        ∧ (idx r 2 = email b ∨ idx r 1 = phone b)) →
  POST e b st = (json_error "You are already registered for this event" 400, st).
Proof using All.
  intros (r & Hin & Hr). rewrite POST_event_found, event_enabled. cbn [negb].
  destruct (find_Some_Exists (same_person b) (drop 1 (table_rows i sheetData)))
    as [w ->]; [|done].
  apply Exists_exists. exists r. split; [done|].
  unfold same_person. destruct Hr as [Hr|Hr].
  - by rewrite (bool_decide_eq_true_2 _ Hr).
  - rewrite (bool_decide_eq_true_2 _ Hr). apply orb_true_r.
Qed.

Lemma registration_row_not_blank : is_blank (registration_row e b) = false.
Proof using valid.
  destruct (validate_None_fields _ _ valid) as (_ & _ & Hname & _).
  unfold registration_row, is_blank. simpl. by rewrite Hname.
Qed.

Lemma POST_fresh :
  (∀ r, r ∈ drop 1 (table_rows i sheetData) →
        idx r 2 ≠ email b ∧ idx r 1 ≠ phone b) →
  let d' := insert_at (S i + length (table_rows i sheetData)) (registration_row e b)
                      sheetData in
  let st' := <[companyName := d']> st in
  POST e b st = (success e b, st')
  ∧ getTableData companyName (to_string (eventName b)) st'
    = (Ret (table_rows i sheetData ++ [registration_row e b]), st').
Proof using All.
  intros Hnone d' st'.
  destruct (table_insert _ _ _ (registration_row e b) event_found
              registration_row_not_blank) as [Hs' Hr'].
  split.
  - rewrite POST_event_found, event_enabled. cbn [negb].
    assert (List.find (same_person b) (drop 1 (table_rows i sheetData)) = None) as ->.
    { apply find_None_Forall, Forall_forall. intros r Hin.
      destruct (Hnone r Hin) as [He Hp]. unfold same_person.
      by rewrite !bool_decide_eq_false_2. }
    unfold run, mbind, io_bind, bind, addToTable, with_table.
    by rewrite company_sheet, event_found.
  - unfold getTableData, with_table, st'. rewrite lookup_insert_eq.
    fold d' in Hs', Hr'. by rewrite Hs', Hr'.
Qed.

End Registration.

(** C2, amended. A registration request that passes the field validations
    and names a company whose row in the companies table has 'false' in the
    enabled column is answered 403 'Registration is unavailable for this
    company', and the store is left as it was. *)
Theorem C2_disabled_company (e : env) (b : Register.body) (st : store)
    (companyName : string) (companiesData : sheet) (company : row) :
  decodeURIComponent (Register.rawCompanyName b) = Some companyName →
  Register.validate b companyName = None →
  st !! "companies" = Some companiesData →
  Register.find_company companyName companiesData = Some company →
  idx company 5 = Some "false" →
  Register.POST e b st
  = (json_error "Registration is unavailable for this company" 403, st).
Proof. intros. by eapply POST_company_disabled. Qed.

Lemma C2_disabled_company_witness :
  Register.POST Sample.env0 Sample.bob_ok (Sample.shop (Some "false") "true")
  = (json_error "Registration is unavailable for this company" 403,
     Sample.shop (Some "false") "true").
Proof.
  apply (C2_disabled_company Sample.env0 Sample.bob_ok
           (Sample.shop (Some "false") "true") "Acme"
           [Sample.companies_header; Sample.acme_row (Some "false")]
           (Sample.acme_row (Some "false"))); reflexivity.
Defined.

(** C2 as stated fails: the company is disabled, but the e-mail address of
    the request has no "@", and the answer is 400 'Invalid email format'
    instead of 403. *)
Lemma C2_counterexample :
  let st := Sample.shop (Some "false") "true" in
  let b := Sample.bob (Some "Acme") (Some "bob.example.org") (Some "0123456789") in
  Register.find_company "Acme" [Sample.companies_header; Sample.acme_row (Some "false")]
  = Some (Sample.acme_row (Some "false"))
  ∧ idx (Sample.acme_row (Some "false")) 5 = Some "false"
  ∧ Register.POST Sample.env0 b st = (json_error "Invalid email format" 400, st)
  ∧ resp_status (fst (Register.POST Sample.env0 b st)) ≠ 403.
Proof. vm_compute. split_and!; [reflexivity..|discriminate]. Qed.

(** C3, amended. A registration request that passes the field validations
    and names an existing, enabled company and an existing event whose first
    row after the headers has 'false' in its last column is answered 403
    'Registration has ended for this event', and the store is left as it
    was. *)
Theorem C3_disabled_event (e : env) (b : Register.body) (st : store)
    (companyName : string) (companiesData : sheet) (company : row)
    (sheetData : sheet) (i : nat) (r1 : row) :
  decodeURIComponent (Register.rawCompanyName b) = Some companyName →
  Register.validate b companyName = None →
  st !! "companies" = Some companiesData →
  Register.find_company companyName companiesData = Some company →
  idx company 5 ≠ Some "false" →
  st !! companyName = Some sheetData →
  table_start (to_string (Register.eventName b)) sheetData = Some i →
  table_rows i sheetData !! 1 = Some r1 →
  r1 ≠ [] →
  idx r1 (length r1 - 1) = Some "false" →
  Register.POST e b st = (json_error "Registration has ended for this event" 403, st).
Proof.
  intros ??????? H1 ??. eapply POST_event_disabled; eauto.
  intros Hnil. by rewrite Hnil in H1.
Qed.

Lemma C3_disabled_event_witness :
  Register.POST Sample.env0 Sample.bob_ok (Sample.shop None "false")
  = (json_error "Registration has ended for this event" 403, Sample.shop None "false").
Proof.
  apply (C3_disabled_event Sample.env0 Sample.bob_ok (Sample.shop None "false") "Acme"
           [Sample.companies_header; Sample.acme_row None] (Sample.acme_row None)
           (Sample.launch_table "false") 0
           [Some ""; Some ""; Some ""; Some ""; Some ""; Some ""; Some ""; Some "";
            Some ""; Some "false"]);
    (reflexivity || discriminate).
Defined.

(** C3 as stated fails: the event is disabled and so is its company; the
    company is checked first and the answer is 403 'Registration is
    unavailable for this company'. *)
Lemma C3_counterexample :
  let st := Sample.shop (Some "false") "false" in
  getTableData "Acme" "Launch" st = (Ret (drop 1 (Sample.launch_table "false")), st)
  ∧ Register.isEventEnabled (drop 1 (Sample.launch_table "false")) = false
  ∧ Register.POST Sample.env0 Sample.bob_ok st
    = (json_error "Registration is unavailable for this company" 403, st)
  ∧ fst (Register.POST Sample.env0 Sample.bob_ok st)
    ≠ json_error "Registration has ended for this event" 403
  ∧ Register.POST Sample.env0
      (Sample.bob (Some "Acme") (Some "bob@example.org") (Some "12345"))
      (Sample.shop None "false")
    = (json_error "Invalid phone number format" 400, Sample.shop None "false").
Proof. vm_compute. split_and!; [reflexivity..|discriminate|reflexivity]. Qed.

(** C1, amended. For a registration request that passes the field
    validations and names an existing, enabled company and an existing,
    enabled event: if a row of the event's table below the header has the
    request's e-mail address or telephone number, the answer is 400 'You are
    already registered for this event' and the store is left as it was;
    otherwise the answer is the success message, exactly one row (the seven
    registrant fields, the timestamp and an empty image cell) is added below
    the last row of the event's table, and nothing else changes. *)
Theorem C1_register_once (e : env) (b : Register.body) (st : store)
    (companyName : string) (companiesData : sheet) (company : row)
    (sheetData : sheet) (i : nat) :
  decodeURIComponent (Register.rawCompanyName b) = Some companyName →
  Register.validate b companyName = None →
  st !! "companies" = Some companiesData →
  Register.find_company companyName companiesData = Some company →
  idx company 5 ≠ Some "false" →
  st !! companyName = Some sheetData →
  table_start (to_string (Register.eventName b)) sheetData = Some i →
  table_rows i sheetData ≠ [] →
  Register.isEventEnabled (table_rows i sheetData) = true →
  let tableData := table_rows i sheetData in
  let new_row :=
    [Register.name b; Register.phone b; Register.email b; Register.gender b;
     Register.college b; Register.status b; Register.nationalId b;
     Some (now_iso e); Some ""] in
  ((∃ r, r ∈ drop 1 tableData
         ∧ (idx r 2 = Register.email b ∨ idx r 1 = Register.phone b)) →
   Register.POST e b st
   = (json_error "You are already registered for this event" 400, st))
  ∧ ((∀ r, r ∈ drop 1 tableData →
           idx r 2 ≠ Register.email b ∧ idx r 1 ≠ Register.phone b) →
     let st' := snd (Register.POST e b st) in
     fst (Register.POST e b st) = Register.success e b
     ∧ st' = <[companyName := insert_at (S i + length tableData) new_row sheetData]> st
     ∧ getTableData companyName (to_string (Register.eventName b)) st'
       = (Ret (tableData ++ [new_row]), st')).
Proof.
  intros Hd Hv Hc Hf Hen Hs Ht Hrows Hev tableData new_row. split.
  - intros Hdup. by eapply POST_duplicate.
  - intros Hnone.
    destruct (POST_fresh e b st companyName Hd Hv companiesData company Hc Hf
                sheetData i Hen Hs Ht Hrows Hev Hnone) as [HP HG].
    rewrite HP. done.
Qed.

Lemma C1_register_once_witness :
  fst (Register.POST Sample.env0 Sample.bob_ok (Sample.shop None "true"))
  = Register.success Sample.env0 Sample.bob_ok.
Proof.
  refine (proj1 (proj2
    (C1_register_once Sample.env0 Sample.bob_ok (Sample.shop None "true") "Acme"
       [Sample.companies_header; Sample.acme_row None] (Sample.acme_row None)
       (Sample.launch_table "true") 0 _ _ _ _ _ _ _ _ _) _));
    try reflexivity; try discriminate.
  intros r Hr. vm_compute in Hr.
  apply list_elem_of_singleton in Hr as ->. split; discriminate.
Defined.

(** C1 as stated fails: company and event exist and are enabled and nobody
    is registered, but the e-mail address of the request has no "@"; the
    answer is 400 'Invalid email format' and no row is added. *)
Lemma C1_counterexample :
  let st := Sample.shop None "true" in
  let b := Sample.bob (Some "Acme") (Some "bob.example.org") (Some "0123456789") in
  Register.find_company "Acme" [Sample.companies_header; Sample.acme_row None]
  = Some (Sample.acme_row None)
  ∧ Register.isEnabled (Sample.acme_row None) = true
  ∧ Register.isEventEnabled (drop 1 (Sample.launch_table "true")) = true
  ∧ getTableData "Acme" "Launch" st = (Ret (drop 1 (Sample.launch_table "true")), st)
  ∧ List.find (Register.same_person b) (drop 2 (Sample.launch_table "true")) = None
  ∧ Register.POST Sample.env0 b st = (json_error "Invalid email format" 400, st)
  ∧ getTableData "Acme" "Launch" (snd (Register.POST Sample.env0 b st))
    = (Ret (drop 1 (Sample.launch_table "true")), st).
Proof. vm_compute. split_and!; reflexivity. Qed.

(** C10. The validations do not reject a request without [companyName]:
    [decodeURIComponent(undefined)] is the text "undefined", which passes the
    test for a missing field.  Such a request, otherwise well formed, is
    answered 404 where no company is called "undefined", and is registered
    where one is; and a company name with a malformed escape is answered 500
    even though the e-mail address is malformed too. *)
Theorem C10_missing_company_name :
  let b := Sample.bob None (Some "bob@example.org") (Some "0123456789") in
  Register.POST Sample.env0 b (Sample.shop None "true")
  = (json_error "Company not found" 404, Sample.shop None "true")
  ∧ fst (Register.POST Sample.env0 b Sample.odd_shop) = Register.success Sample.env0 b
  ∧ snd (Register.POST Sample.env0 b Sample.odd_shop) !! "undefined"
    = Some (Sample.launch_table "true" ++ [Register.registration_row Sample.env0 b])
  ∧ Register.POST Sample.env0
      (Sample.bob (Some "100%") (Some "bob.example.org") (Some "0123456789"))
      (Sample.shop None "true")
    = (json_error "Failed to register for event" 500, Sample.shop None "true").
Proof. vm_compute. split_and!; reflexivity. Qed.

(** *** The row that PATCH writes back *)

Lemma idx_set_idx_eq (k : nat) (v : cell) (r : row) : idx (set_idx k v r) k = v.
Proof.
  unfold idx, set_idx. case_decide as Hk.
  - by rewrite list_lookup_insert_eq.
  - rewrite lookup_app_r by lia. rewrite lookup_app_r by (rewrite length_replicate; lia).
    rewrite length_replicate. by replace (k - length r - (k - length r)) with 0 by lia.
Qed.

Lemma idx_set_idx_ne (k j : nat) (v : cell) (r : row) :
  j ≠ k → idx (set_idx k v r) j = idx r j.
Proof.
  intros Hne. unfold idx, set_idx. case_decide as Hk.
  - by rewrite list_lookup_insert_ne.
  - destruct (decide (j < length r)) as [Hj|Hj].
    + by rewrite lookup_app_l.
    + rewrite (lookup_ge_None_2 r j) by lia.
      rewrite lookup_app_r by lia.
      destruct (decide (j < k)).
      * rewrite lookup_app_l by (rewrite length_replicate; lia).
        by rewrite lookup_replicate_2 by lia.
      * rewrite lookup_ge_None_2; [done|].
        rewrite length_app, length_replicate. simpl. lia.
Qed.

(** What PATCH leaves in the username cell. *)
Lemma updated_username (e : env) (b : Companies.patch_body) (company : row) :
  idx (Companies.updatedCompany e b company) 2
  = if truthy (Companies.p_username b) then Companies.p_username b else idx company 2.
Proof.
  unfold Companies.updatedCompany.
  repeat match goal with
         | |- context [match ?c with _ => _ end] => destruct c
         end;
    rewrite ?(idx_set_idx_ne 5), ?(idx_set_idx_ne 4), ?(idx_set_idx_ne 3),
      ?idx_set_idx_eq, ?(idx_set_idx_ne 1) by lia; reflexivity.
Qed.

(** What PATCH leaves in the password cell. *)
Lemma updated_password (e : env) (b : Companies.patch_body) (company : row) :
  idx (Companies.updatedCompany e b company) 3
  = if truthy (Companies.p_password b)
    then Some (bcrypt_hash e (to_string (Companies.p_password b)) 10)
    else idx company 3.
Proof.
  unfold Companies.updatedCompany.
  repeat match goal with
         | |- context [match ?c with _ => _ end] => destruct c
         end;
    rewrite ?(idx_set_idx_ne 5), ?(idx_set_idx_ne 4), ?idx_set_idx_eq,
      ?(idx_set_idx_ne 2), ?(idx_set_idx_ne 1) by lia; reflexivity.
Qed.

(** A request that supplies nothing but the enabled flag changes cell 5. *)
Lemma updated_only_enabled (e : env) (b : Companies.patch_body) (company : row)
    (enabled : bool) :
  Companies.p_name b = None → Companies.p_username b = None →
  Companies.p_password b = None → Companies.p_image b = None →
  Companies.p_enabled b = Some enabled →
  Companies.updatedCompany e b company
  = set_idx 5 (Some (if enabled then "true" else "false")) company.
Proof.
  intros Hn Hu Hp Hi Hen. unfold Companies.updatedCompany.
  by rewrite Hn, Hu, Hp, Hi, Hen.
Qed.

(** *** Companies *)

Lemma getSheetData_Some (n : string) (d : sheet) (st : store) :
  st !! n = Some d → getSheetData n st = (Ret d, st).
Proof. unfold getSheetData. by intros ->. Qed.

Lemma appendToSheet_Some (n : string) (d : sheet) (rows : list row) (st : store) :
  st !! n = Some d → appendToSheet n rows st = (Ret (), <[n := d ++ rows]> st).
Proof. unfold appendToSheet. by intros ->. Qed.

Lemma existsb_false_Forall {A} (p : A → bool) (l : list A) :
  Forall (λ x, p x = false) l → existsb p l = false.
Proof. induction 1 as [|x l Hx _ IH]; simpl; [done|]. by rewrite Hx, IH. Qed.

Lemma POST_appends (e : env) (b : Companies.post_body) (st : store) :
  is_admin e = true →
  truthy (Companies.name b) = true →
  truthy (Companies.username b) = true →
  truthy (Companies.password b) = true →
  (∀ r, r ∈ drop 1 (companies_or_new st) → idx r 2 ≠ Companies.username b) →
  snd (Companies.POST e b st) !! "companies"
  = Some (companies_or_new st ++ [posted_row e b])
  ∧ (resp_status (fst (Companies.POST e b st)) = 200
     ∨ resp_status (fst (Companies.POST e b st)) = 500).
Proof.
  intros Hadm Hn Hu Hp Hfree.
  unfold Companies.POST. rewrite Hadm, Hn, Hu, Hp. cbn [negb orb].
  assert (∃ st1, (try_catch (getSheetData "companies";; mret ())
                    (createSheet "companies";; appendToSheet "companies" [Companies.header]))
                   st = (Ret (), st1)
                 ∧ st1 !! "companies" = Some (companies_or_new st)
                 ∧ ∀ d, <["companies" := d]> st1 = <["companies" := d]> st)
    as (st1 & Hprep & Hst1 & Hins).
  { unfold try_catch, mbind, io_bind, bind, getSheetData, createSheet, appendToSheet,
      companies_or_new.
    destruct (st !! "companies") as [d|] eqn:Hc.
    - exists st. by rewrite Hc.
    - rewrite Hc, lookup_insert_eq. eexists. split; [reflexivity|].
      split; [by rewrite lookup_insert_eq|]. intros d. by rewrite !insert_insert_eq. }
  set (st2 := <["companies" := companies_or_new st ++ [posted_row e b]]> st1).
  assert (st2 !! "companies" = Some (companies_or_new st ++ [posted_row e b])) as H2.
  { unfold st2. by rewrite lookup_insert_eq. }
  assert (∀ k : unit → io response,
            run (try_catch (getSheetData "companies";; mret ())
                   (createSheet "companies";; appendToSheet "companies" [Companies.header]);;
                 existingData ← getSheetData "companies";
                 (if existsb (λ r, bool_decide (idx r 2 = Companies.username b))
                             (drop 1 existingData)
                  then mret (json_error "Username already exists" 400)
                  else appendToSheet "companies" [posted_row e b] ≫= k))
                (json_error "Failed to create company" 500) st
            = run (k ()) (json_error "Failed to create company" 500) st2) as Hsteps.
  { intros k. unfold run.
    erewrite bind_Ret by exact Hprep.
    erewrite bind_Ret by (by apply getSheetData_Some).
    rewrite existsb_false_Forall; cycle 1.
    { apply Forall_forall. intros r Hr. by rewrite bool_decide_eq_false_2 by auto. }
    erewrite bind_Ret by (by apply appendToSheet_Some). done. }
  unfold posted_row in Hsteps. cbv zeta in Hsteps. rewrite Hsteps. clear Hsteps.
  unfold run, mbind, io_bind, bind, createSheet.
  destruct (st2 !! to_string (Companies.name b)) as [d|] eqn:Hname; simpl.
  - by split; [|right].
  - split; [|by left]. rewrite lookup_insert_ne; [done|]. intros Heq.
    rewrite Heq in Hname. congruence.
Qed.

Lemma company_object_agree (r1 r2 : row) :
  rows_agree r1 r2 → Companies.company_object r1 = Companies.company_object r2.
Proof.
  intros H. unfold Companies.company_object.
  by rewrite (H 0), (H 1), (H 2), (H 4), (H 5) by lia.
Qed.

Lemma GET_password_blind (e : env) (st1 st2 : store) (d1 d2 : sheet) :
  st1 !! "companies" = Some d1 →
  st2 !! "companies" = Some d2 →
  Forall2 rows_agree d1 d2 →
  fst (Companies.GET e st1) = fst (Companies.GET e st2).
Proof.
  intros H1 H2 Hagree. unfold Companies.GET.
  destruct (is_admin e); [|done]. cbn [negb].
  erewrite !run_Ret
    by (erewrite bind_Ret by (by apply getSheetData_Some); reflexivity).
  cbn [fst].
  assert (Companies.company_object <$> drop 1 d1
          = Companies.company_object <$> drop 1 d2) as ->; [|done].
  apply (Forall2_drop _ _ _ 1) in Hagree.
  induction Hagree as [|r1 r2 l1 l2 Hr _ IH]; [done|].
  rewrite !fmap_cons. by rewrite (company_object_agree _ _ Hr), IH.
Qed.

(** C7. POST /api/companies stores the bcrypt hash of the submitted password
    in the password column of the row it appends (and the row that PATCH
    writes back holds the hash of a submitted password, or the cell as it
    was); the answer of GET /api/companies is the same for two stores whose
    companies tables differ only in password cells, and each company object
    it lists has the fields id, name, username, image and enabled, and no
    other. *)
Theorem C7_password_hidden (e : env) (b : Companies.post_body) (st : store)
    (e' : env) (st1 st2 : store) (d1 d2 : sheet) :
  is_admin e = true →
  truthy (Companies.name b) = true →
  truthy (Companies.username b) = true →
  truthy (Companies.password b) = true →
  (∀ r, r ∈ drop 1 (companies_or_new st) → idx r 2 ≠ Companies.username b) →
  st1 !! "companies" = Some d1 →
  st2 !! "companies" = Some d2 →
  Forall2 rows_agree d1 d2 →
  (∃ id imageUrl,
     snd (Companies.POST e b st) !! "companies"
     = Some (companies_or_new st
             ++ [[id; Companies.name b; Companies.username b;
                  Some (bcrypt_hash e (to_string (Companies.password b)) 10);
                  imageUrl]]))
  ∧ (∀ pb company,
       idx (Companies.updatedCompany e pb company) 3
       = if truthy (Companies.p_password pb)
         then Some (bcrypt_hash e (to_string (Companies.p_password pb)) 10)
         else idx company 3)
  ∧ fst (Companies.GET e' st1) = fst (Companies.GET e' st2)
  ∧ (∀ r, ∃ fields, Companies.company_object r = JObj fields
                    ∧ fields.*1 = ["id"; "name"; "username"; "image"; "enabled"]).
Proof.
  intros Hadm Hn Hu Hp Hfree H1 H2 Hagree. split_and!.
  - destruct (POST_appends e b st Hadm Hn Hu Hp Hfree) as [Hrow _].
    eexists _, _. exact Hrow.
  - intros pb company. apply updated_password.
  - by eapply GET_password_blind.
  - intros r. eexists. split; reflexivity.
Qed.

Lemma C7_password_hidden_witness :
  fst (Companies.GET Sample.admin0 (Sample.shop None "true"))
  = fst (Companies.GET Sample.admin0
           {[ "companies" := [Sample.companies_header;
                              [Some "company_1"; Some "Acme"; Some "acme";
                               Some "$2a$10$other"; None; None]] ]}).
Proof.
  refine (proj1 (proj2 (proj2
    (C7_password_hidden Sample.admin0 (Sample.new_company "Beta" "beta" "pw")
       (Sample.shop None "true") Sample.admin0 (Sample.shop None "true")
       {[ "companies" := [Sample.companies_header;
                          [Some "company_1"; Some "Acme"; Some "acme";
                           Some "$2a$10$other"; None; None]] ]}
       [Sample.companies_header; Sample.acme_row None]
       [Sample.companies_header;
        [Some "company_1"; Some "Acme"; Some "acme"; Some "$2a$10$other"; None; None]]
       _ _ _ _ _ _ _ _)))); try reflexivity.
  - intros r Hr. vm_compute in Hr. apply list_elem_of_singleton in Hr as ->. discriminate.
  - repeat constructor; intros i Hi; do 7 (destruct i as [|i]; try done).
Defined.

(** *** Events *)

Lemma firstRow_cells (imageUrl : cell) :
  Events.firstRow imageUrl
  = [Some ""; Some ""; Some ""; Some ""; Some ""; Some ""; Some ""; Some "";
     or_else imageUrl (Some ""); Some "true"].
Proof. reflexivity. Qed.

Lemma firstRow_not_blank (imageUrl : cell) : is_blank (Events.firstRow imageUrl) = false.
Proof. rewrite firstRow_cells. unfold is_blank. simpl. apply andb_false_r. Qed.

Lemma table_start_new (d : sheet) (t : string) (rest : list row) :
  table_start t d = None →
  table_start t (d ++ [] :: [Some t] :: rest) = Some (length d + 1).
Proof.
  unfold table_start. intros Hnone.
  destruct (list_find _ d) as [[j w]|] eqn:Hf; [done|].
  rewrite (list_find_app_r _ _ _ Hf). simpl.
  rewrite decide_True by done. simpl. f_equal. lia.
Qed.

Lemma create_then_first_row (st : store) (cn en : string) (d : sheet) (hs r1 : row) :
  st !! cn = Some d →
  table_start en d = None →
  (createTable cn en hs;; updateTableData cn en 1 r1) st
  = (Ret (), <[cn := with_new_table d en hs r1]> st).
Proof.
  intros Hd Hfresh.
  assert (∃ d1 i, createTable cn en hs st = (Ret (), <[cn := d1]> st)
                  ∧ table_start en d1 = Some i
                  ∧ write_row (S i + 1) r1 d1 = with_new_table d en hs r1)
    as (d1 & i & Hc & Hi & Hw).
  { unfold createTable. rewrite Hd. destruct d as [|r0 d0].
    - exists [[Some en]; hs], 0. split; [done|]. split; [|done].
      unfold table_start. simpl. by rewrite decide_True.
    - exists ((r0 :: d0) ++ [[]; [Some en]; hs]), (length (r0 :: d0) + 1).
      split; [done|]. split; [by apply table_start_new|].
      unfold write_row, with_new_table. rewrite decide_False.
      + rewrite length_app. simpl length.
        replace (S (S (length d0) + 1) + 1 - (S (length d0) + 3)) with 0 by lia.
        simpl. by rewrite <- app_assoc.
      + rewrite length_app. simpl. lia. }
  erewrite bind_Ret by exact Hc.
  unfold updateTableData, with_table. rewrite lookup_insert_eq, Hi.
  by rewrite insert_insert_eq, Hw.
Qed.

Lemma new_table_rows (d : sheet) (en : string) (hs r1 : row) :
  table_start en d = None →
  is_blank hs = false → is_blank r1 = false →
  ∃ i, table_start en (with_new_table d en hs r1) = Some i
       ∧ table_rows i (with_new_table d en hs r1) = [hs; r1].
Proof.
  intros Hfresh Hhs Hr1. destruct d as [|r0 d0].
  - exists 0. split.
    + unfold table_start. simpl. by rewrite decide_True.
    + unfold table_rows. simpl. by rewrite Hhs, Hr1.
  - exists (length (r0 :: d0) + 1). split; [by apply table_start_new|].
    unfold table_rows, with_new_table.
    replace (S (length (r0 :: d0) + 1)) with (length (r0 :: d0) + 2) by lia.
    rewrite drop_app_add. simpl. by rewrite Hhs, Hr1.
Qed.

(** C8, amended. An event created by POST /api/events under a name that
    the company's sheet does not hold yet gets a table in that sheet, below
    the rows the sheet had: its header row is the fixed one, and its first data row has
    'true' in the Enabled column, the URL of the uploaded image (if one was
    uploaded) in the Image column and empty cells elsewhere. *)
Theorem C8_event_table (e : env) (u : user) (b : Events.post_body) (st : store)
    (d : sheet) :
  session e = Some u →
  truthy (Events.companyName b) = true →
  truthy (Events.eventName b) = true →
  foreign u (to_string (Events.companyName b)) = false →
  st !! to_string (Events.companyName b) = Some d →
  table_start (to_string (Events.eventName b)) d = None →
  let cn := to_string (Events.companyName b) in
  let en := to_string (Events.eventName b) in
  let imageUrl :=
    uploaded e (Events.image_name e (Events.companyName b) (Events.eventName b))
             (Events.p_image b) "events" in
  let header :=
    [Some "Name"; Some "Phone"; Some "Email"; Some "Gender"; Some "College";
     Some "Status"; Some "National ID"; Some "Registration Date"; Some "Image";
     Some "Enabled"] in
  let first :=
    [Some ""; Some ""; Some ""; Some ""; Some ""; Some ""; Some ""; Some "";
     or_else imageUrl (Some ""); Some "true"] in
  let st' := snd (Events.POST e b st) in
  resp_status (fst (Events.POST e b st)) = 200
  ∧ st' = <[cn := match d with
                  | [] => [[Some en]; header; first]
                  | _ => d ++ [[]; [Some en]; header; first]
                  end]> st
  ∧ getTableData cn en st' = (Ret [header; first], st')
  ∧ idx first (default 0 (indexOf "Enabled" header)) = Some "true"
  ∧ idx first (default 0 (indexOf "Image" header)) = or_else imageUrl (Some "").
Proof.
  intros Hs Hc He Hown Hd Hfresh cn en imageUrl header first st'.
  assert (Events.POST e b st
          = (json_ok
               (JObj [("success", JBool true);
                      ("event",
                       JObj [("id", of_cell (Events.eventName b));
                             ("name", of_cell (Events.eventName b));
                             ("image", of_cell imageUrl);
                             ("enabled", JBool true);
                             ("registrationUrl",
                              JStr (to_string (nextauth_url e) +:+ "/" +:+ cn +:+ "/"
                                    +:+ en))])]),
             <[cn := with_new_table d en Events.headers (Events.firstRow imageUrl)]> st))
    as HP.
  { unfold Events.POST. rewrite Hs, Hc, He, Hown. cbn [negb orb].
    apply run_Ret. rewrite bind_assoc.
    erewrite bind_Ret by (by apply create_then_first_row). done. }
  subst st'. rewrite HP. cbn [fst snd]. split; [done|]. split; [done|].
  split; [|done].
  destruct (new_table_rows d en Events.headers (Events.firstRow imageUrl) Hfresh)
    as (i & Hi & Hrows); [done|apply firstRow_not_blank|].
  unfold getTableData, with_table. rewrite lookup_insert_eq, Hi, Hrows. done.
Qed.

Lemma C8_event_table_witness :
  getTableData "Acme" "Launch"
    (snd (Events.POST Sample.acme0 (Sample.new_event "Acme" "Launch" None)
            {[ "Acme" := [] ]})) =
  (Ret (drop 1 (Sample.launch_table "true")),
   snd (Events.POST Sample.acme0 (Sample.new_event "Acme" "Launch" None)
          {[ "Acme" := [] ]})).
Proof.
  refine (proj1 (proj2 (proj2
    (C8_event_table Sample.acme0 Sample.acme (Sample.new_event "Acme" "Launch" None)
       {[ "Acme" := [] ]} [] _ _ _ _ _ _)))); reflexivity.
Defined.

(** C8 as stated fails: the handler does not look for an event of the same
    name.  A second POST for Launch is answered 200; the table it creates,
    at row 5 of the sheet, has a header row and no first data row, and the
    row with the flag is written over the first row of the table that was
    there, which was switched off and is on again. *)
Lemma C8_counterexample :
  let b := Sample.new_event "Acme" "Launch" None in
  let st' := snd (Events.POST Sample.acme0 b Cases.busy) in
  let d' := [[Some "Launch"]; Events.headers; Events.firstRow None; Cases.alice_row;
             []; [Some "Launch"]; Events.headers] in
  Cases.busy !! "Acme"
  = Some [[Some "Launch"]; Events.headers;
          [Some ""; Some ""; Some ""; Some ""; Some ""; Some ""; Some ""; Some "";
           Some ""; Some "false"];
          Cases.alice_row]
  ∧ resp_status (fst (Events.POST Sample.acme0 b Cases.busy)) = 200
  ∧ st' !! "Acme" = Some d'
  ∧ d' !! 5 = Some [Some "Launch"]
  ∧ table_rows 5 d' = [Events.headers]
  ∧ getTableData "Acme" "Launch" st'
    = (Ret [Events.headers; Events.firstRow None; Cases.alice_row], st').
Proof. vm_compute. split_and!; reflexivity. Qed.

(** *** PATCH /api/companies *)

Lemma PATCH_found (nb : numbering) (e : env) (b : Companies.patch_body) (st : store)
    (data : sheet) (i : nat) (company : row) :
  is_admin e = true →
  truthy (Companies.p_id b) = true →
  st !! "companies" = Some data →
  Companies.findIndex (Companies.p_id b) (drop 1 data) = Some (i, company) →
  (username_taken b company (drop 1 data) = true ∧
   Companies.PATCH nb e b st = (json_error "Username already exists" 400, st))
  ∨ (username_taken b company (drop 1 data) = false ∧
     ∃ k, position nb (i + 2) = Some k ∧
          snd (Companies.PATCH nb e b st)
          = <["companies" := delete k data ++ [Companies.updatedCompany e b company]]> st
          ∧ resp_status (fst (Companies.PATCH nb e b st)) = 200).
Proof.
  intros Hadm Hid Hst Hfind. unfold Companies.PATCH.
  rewrite Hadm, Hid. cbn [negb]. unfold run.
  erewrite bind_Ret by (by apply getSheetData_Some).
  rewrite Hfind. fold (username_taken b company (drop 1 data)).
  destruct (username_taken b company (drop 1 data)); [by left|right].
  split; [done|].
  assert (∃ k, position nb (i + 2) = Some k) as [k Hk].
  { destruct nb; simpl; [eauto|]. replace (i + 2) with (S (S i)) by lia. eauto. }
  exists k. split; [done|].
  unfold mbind, io_bind, bind, deleteRow, appendToSheet.
  rewrite Hst, Hk, lookup_insert_eq, insert_insert_eq. done.
Qed.

Lemma position_FromOne (i : nat) : position FromOne (i + 2) = Some (S i).
Proof. replace (i + 2) with (S (S i)) by lia. done. Qed.

Lemma findIndex_Some (id : cell) (companies : list row) (i : nat) (company : row) :
  Companies.findIndex id companies = Some (i, company) →
  companies !! i = Some company ∧ idx company 0 = id.
Proof. unfold Companies.findIndex. by intros (? & ? & _)%list_find_Some. Qed.

Lemma PATCH_toggle (nb : numbering) (e : env) (b : Companies.patch_body) (st : store)
    (data : sheet) (i : nat) (company : row) (enabled : bool) :
  is_admin e = true →
  truthy (Companies.p_id b) = true →
  Companies.p_name b = None → Companies.p_username b = None →
  Companies.p_password b = None → Companies.p_image b = None →
  Companies.p_enabled b = Some enabled →
  st !! "companies" = Some data →
  Companies.findIndex (Companies.p_id b) (drop 1 data) = Some (i, company) →
  let patched := set_idx 5 (Some (if enabled then "true" else "false")) company in
  resp_status (fst (Companies.PATCH nb e b st)) = 200
  ∧ snd (Companies.PATCH nb e b st)
    = <["companies" := delete (match nb with FromOne => S i | FromZero => S (S i) end) data
                       ++ [patched]]> st.
Proof.
  intros Hadm Hid Hn Hu Hp Him Hen Hst Hfind patched.
  destruct (PATCH_found nb e b st data i company Hadm Hid Hst Hfind)
    as [[Htaken _]|(_ & k & Hk & Hst' & Hok)].
  { unfold username_taken in Htaken. by rewrite Hu in Htaken. }
  split; [done|]. rewrite Hst'.
  rewrite (updated_only_enabled e b company enabled) by done.
  destruct nb.
  - simpl in Hk. injection Hk as <-. by replace (i + 2) with (S (S i)) by lia.
  - rewrite position_FromOne in Hk. by injection Hk as <-.
Qed.

(** With rows numbered from 1, as the PATCH handler assumes, the company's
    row is taken out of the companies table and put back as its last row
    with cell 5 set to the requested flag; the header row and the rows of
    all other companies are unchanged. *)
Lemma PATCH_toggle_FromOne (e : env) (b : Companies.patch_body) (st : store)
    (data : sheet) (i : nat) (company : row) (enabled : bool) :
  is_admin e = true →
  truthy (Companies.p_id b) = true →
  Companies.p_name b = None → Companies.p_username b = None →
  Companies.p_password b = None → Companies.p_image b = None →
  Companies.p_enabled b = Some enabled →
  st !! "companies" = Some data →
  Companies.findIndex (Companies.p_id b) (drop 1 data) = Some (i, company) →
  let patched := set_idx 5 (Some (if enabled then "true" else "false")) company in
  snd (Companies.PATCH FromOne e b st)
  = <["companies" := take 1 data ++ delete i (drop 1 data) ++ [patched]]> st.
Proof.
  intros Hadm Hid Hn Hu Hp Him Hen Hst Hfind patched.
  destruct (PATCH_toggle FromOne e b st data i company enabled) as [_ ->]; try done.
  f_equal. destruct data as [|h cs]; [done|]. simpl. by rewrite drop_0.
Qed.

(** With rows numbered from 0, as the DELETE handler assumes, the company's
    old row stays where it is, the row below it (the next company's, if
    there is one) is taken out, and the row with the new flag is added at the
    end. *)
Lemma PATCH_toggle_FromZero (e : env) (b : Companies.patch_body) (st : store)
    (data : sheet) (i : nat) (company : row) (enabled : bool) :
  is_admin e = true →
  truthy (Companies.p_id b) = true →
  Companies.p_name b = None → Companies.p_username b = None →
  Companies.p_password b = None → Companies.p_image b = None →
  Companies.p_enabled b = Some enabled →
  st !! "companies" = Some data →
  Companies.findIndex (Companies.p_id b) (drop 1 data) = Some (i, company) →
  let patched := set_idx 5 (Some (if enabled then "true" else "false")) company in
  snd (Companies.PATCH FromZero e b st)
  = <["companies" := take 1 data ++ take (S i) (drop 1 data)
                     ++ drop (S (S i)) (drop 1 data) ++ [patched]]> st
  ∧ take (S i) (drop 1 data) !! i = Some company.
Proof.
  intros Hadm Hid Hn Hu Hp Him Hen Hst Hfind patched.
  destruct (PATCH_toggle FromZero e b st data i company enabled) as [_ ->]; try done.
  apply findIndex_Some in Hfind as [Hi _]. split.
  - f_equal. destruct data as [|h cs]; [done|]. simpl in *. rewrite drop_0 in *.
    f_equal. rewrite delete_take_drop. by rewrite <- app_assoc.
  - rewrite lookup_take_lt by lia. done.
Qed.




(** With rows numbered from 0, as the DELETE handler assumes, the same
    request leaves the old row where it is and appends a second one. *)
Lemma PATCH_FromZero_duplicates :
  snd (Companies.PATCH FromZero Sample.admin0 (Sample.toggle (Some "company_1") false)
         (Sample.shop None "true")) !! "companies"
  = Some [Sample.companies_header; Sample.acme_row None; Sample.acme_row (Some "false")].
Proof. vm_compute. reflexivity. Qed.

(** With rows numbered from 1, as the PATCH handler assumes, DELETE removes
    the row above the company's: here the header row. *)
Lemma DELETE_FromOne_removes_header :
  snd (Companies.DELETE FromOne Sample.admin0 (Some "company_1")
         (Sample.shop None "true")) !! "companies"
  = Some [Sample.acme_row None].
Proof. vm_compute. reflexivity. Qed.

(** *** Usernames *)

Lemma existsb_true_elem {A} (p : A → bool) (l : list A) :
  existsb p l = true → ∃ x, x ∈ l ∧ p x = true.
Proof.
  induction l as [|x l IH]; simpl; [done|].
  destruct (p x) eqn:Hx; simpl.
  - intros _. exists x. split; [left|done].
  - intros (y & Hy & Hp)%IH. exists y. split; [by right|done].
Qed.

Lemma existsb_false_elem {A} (p : A → bool) (l : list A) (x : A) :
  existsb p l = false → x ∈ l → p x = false.
Proof.
  induction l as [|y l IH]; simpl; [by inversion 2|].
  intros [Hy Hl]%orb_false_iff. inversion 1; subst; auto.
Qed.

Lemma POST_keeps_usernames_unique (e : env) (b : Companies.post_body) (st : store) :
  NoDup (usernames st) →
  Companies.POST e b st = (json_error "Username already exists" 400, st)
  ∨ NoDup (usernames (snd (Companies.POST e b st))).
Proof.
  intros Hnd.
  destruct (is_admin e) eqn:Hadm; cycle 1.
  { right. unfold Companies.POST. by rewrite Hadm. }
  destruct (negb (truthy (Companies.name b)) || negb (truthy (Companies.username b))
            || negb (truthy (Companies.password b))) eqn:Hreq.
  { right. unfold Companies.POST. by rewrite Hadm, Hreq. }
  apply orb_false_iff in Hreq as [[Hn Hu]%orb_false_iff Hp].
  apply negb_false_iff in Hn, Hu, Hp.
  destruct (existsb (λ r, bool_decide (idx r 2 = Companies.username b))
                    (drop 1 (companies_or_new st))) eqn:Hex.
  - left. unfold companies_or_new in Hex.
    destruct (st !! "companies") as [data|] eqn:Hst; [|done].
    unfold Companies.POST. rewrite Hadm, Hn, Hu, Hp. cbn [negb orb].
    apply run_Ret.
    erewrite bind_Ret; cycle 1.
    { unfold try_catch. erewrite bind_Ret by (by apply getSheetData_Some). done. }
    erewrite bind_Ret by (by apply getSheetData_Some).
    simpl in Hex. by rewrite Hex.
  - right.
    destruct (POST_appends e b st Hadm Hn Hu Hp) as [Hrow _].
    { intros r Hr Heq. apply (existsb_false_elem _ _ r Hex) in Hr.
      by rewrite bool_decide_eq_true_2 in Hr. }
    unfold usernames, company_rows in *. rewrite Hrow. simpl.
    unfold companies_or_new in *.
    destruct (st !! "companies") as [[|h cs]|] eqn:Hst; simpl in *.
    + constructor.
    + rewrite drop_0 in *. rewrite fmap_app.
      apply NoDup_app. split; [done|]. split; [|apply NoDup_singleton].
      intros u Hu1 ->%list_elem_of_singleton.
      apply list_elem_of_fmap in Hu1 as (r & Heq & Hr).
      apply (existsb_false_elem _ _ r Hex) in Hr.
      by rewrite bool_decide_eq_true_2 in Hr.
    + apply NoDup_singleton.
Qed.

Lemma NoDup_move_last {A} (l : list A) (i : nat) (x : A) :
  l !! i = Some x → NoDup l → NoDup (delete i l ++ [x]).
Proof.
  intros Hi Hnd. eapply NoDup_Permutation_proper; [|exact Hnd].
  etrans; [apply Permutation_app_comm|]. simpl. symmetry. by apply delete_Permutation.
Qed.

Lemma NoDup_replace_last {A} (l : list A) (i : nat) (y : A) :
  NoDup l → y ∉ delete i l → NoDup (delete i l ++ [y]).
Proof.
  intros Hnd Hy. apply NoDup_app. split.
  - eapply sublist_NoDup; [done|apply sublist_delete].
  - split; [|apply NoDup_singleton]. by intros x Hx ->%list_elem_of_singleton.
Qed.

Lemma PATCH_keeps_usernames_unique (e : env) (b : Companies.patch_body) (st : store) :
  NoDup (usernames st) →
  NoDup (ids st) →
  Companies.PATCH FromOne e b st = (json_error "Username already exists" 400, st)
  ∨ NoDup (usernames (snd (Companies.PATCH FromOne e b st))).
Proof.
  intros Hnd Hids.
  destruct (is_admin e) eqn:Hadm; cycle 1.
  { right. unfold Companies.PATCH. by rewrite Hadm. }
  destruct (truthy (Companies.p_id b)) eqn:Hid; cycle 1.
  { right. unfold Companies.PATCH. by rewrite Hadm, Hid. }
  destruct (st !! "companies") as [data|] eqn:Hst; cycle 1.
  { right. unfold Companies.PATCH. rewrite Hadm, Hid. cbn [negb].
    erewrite run_Throw; [done|]. erewrite bind_Throw; [done|].
    unfold getSheetData. by rewrite Hst. }
  destruct (Companies.findIndex (Companies.p_id b) (drop 1 data))
    as [[i company]|] eqn:Hfind; cycle 1.
  { right. unfold Companies.PATCH. rewrite Hadm, Hid. cbn [negb].
    erewrite run_Ret; [done|].
    erewrite bind_Ret by (by apply getSheetData_Some). by rewrite Hfind. }
  destruct (PATCH_found FromOne e b st data i company Hadm Hid Hst Hfind)
    as [[_ H400]|(Hfree & k & Hk & Hst' & _)]; [by left|right].
  rewrite position_FromOne in Hk. injection Hk as <-.
  rewrite Hst'. unfold usernames, ids, company_rows in *.
  rewrite lookup_insert_eq. rewrite Hst in Hnd, Hids. simpl in Hnd, Hids |- *.
  apply findIndex_Some in Hfind as [Hi Hid0].
  destruct data as [|h cs]; [done|]. simpl in Hi, Hnd, Hids, Hfree |- *.
  rewrite drop_0 in *. rewrite fmap_app, list_fmap_delete. simpl.
  rewrite updated_username.
  assert (((λ r, idx r 2) <$> cs) !! i = Some (idx company 2)) as Hui.
  { by rewrite list_lookup_fmap, Hi. }
  unfold username_taken in Hfree.
  destruct (truthy (Companies.p_username b)) eqn:Hu; [|by apply NoDup_move_last].
  destruct (decide (Companies.p_username b = idx company 2)) as [->|Hne].
  { by apply NoDup_move_last. }
  rewrite (bool_decide_eq_false_2 _ Hne) in Hfree. simpl in Hfree.
  apply NoDup_replace_last; [done|].
  rewrite <- list_fmap_delete. intros (r & Hr2 & Hr)%list_elem_of_fmap.
  pose proof (existsb_false_elem _ _ r Hfree (list_elem_of_delete_inv _ _ _ Hr)) as Hchk.
  cbv beta in Hchk. rewrite bool_decide_eq_true_2 in Hchk by done. simpl in Hchk.
  apply negb_false_iff, bool_decide_eq_true_1 in Hchk.
  assert (((λ r, idx r 0) <$> cs) !! i = Some (Companies.p_id b)) as Hii.
  { by rewrite list_lookup_fmap, Hi, <- Hid0. }
  pose proof (delete_Permutation _ _ _ Hii) as Hperm.
  rewrite Hperm in Hids. apply NoDup_cons in Hids as [Hnotin _].
  apply Hnotin. rewrite <- list_fmap_delete. apply list_elem_of_fmap. eauto.
Qed.

(** X9. Usernames that are pairwise distinct stay so under POST; under PATCH
    they do when the company ids are pairwise distinct as well and
    [deleteRow] numbers rows from 1, as the PATCH handler assumes. *)
Lemma usernames_stay_unique (e : env) (pb : Companies.post_body)
    (b : Companies.patch_body) (st : store) :
  NoDup (usernames st) →
  NoDup (ids st) →
  (Companies.POST e pb st = (json_error "Username already exists" 400, st)
   ∨ NoDup (usernames (snd (Companies.POST e pb st))))
  ∧ (Companies.PATCH FromOne e b st = (json_error "Username already exists" 400, st)
     ∨ NoDup (usernames (snd (Companies.PATCH FromOne e b st)))).
Proof.
  intros Hnd Hids. split.
  - by apply POST_keeps_usernames_unique.
  - by apply PATCH_keeps_usernames_unique.
Qed.

Lemma NoDup_cells_true (l : list cell) : bool_decide (NoDup l) = true → NoDup l.
Proof. apply bool_decide_eq_true_1. Qed.

Lemma NoDup_cells_false (l : list cell) : bool_decide (NoDup l) = false → ¬ NoDup l.
Proof. apply bool_decide_eq_false_1. Qed.

(** C4. Uniqueness of usernames is not preserved by PATCH /api/companies.
    Two POST requests within one millisecond produce a companies table with
    distinct usernames in which both companies have the same id; a PATCH
    that gives the first company the username of the second is then accepted
    with status 200, and both companies have the same username afterwards.
    (That is with [deleteRow] numbering rows from 1, as the PATCH handler
    assumes; with rows numbered from 0 any accepted PATCH leaves the old row
    in place and adds a second row with the same username.) *)
Theorem C4_username_given_twice :
  let st := Sample.twins in
  let b := Sample.rename (Some "company_1700000000000") "gamma" in
  st !! "companies"
  = Some [Companies.header;
          [Some "company_1700000000000"; Some "Alpha"; Some "alpha";
           Some "$2a$10$pw1"; None];
          [Some "company_1700000000000"; Some "Gamma"; Some "gamma";
           Some "$2a$10$pw2"; None]]
  ∧ NoDup (usernames st)
  ∧ resp_status (fst (Companies.PATCH FromOne Sample.admin0 b st)) = 200
  ∧ usernames (snd (Companies.PATCH FromOne Sample.admin0 b st))
    = [Some "gamma"; Some "gamma"]
  ∧ ¬ NoDup (usernames (snd (Companies.PATCH FromOne Sample.admin0 b st)))
  ∧ NoDup (usernames (Sample.shop None "true"))
  ∧ resp_status (fst (Companies.PATCH FromZero Sample.admin0
                        (Sample.toggle (Some "company_1") false)
                        (Sample.shop None "true"))) = 200
  ∧ ¬ NoDup (usernames (snd (Companies.PATCH FromZero Sample.admin0
                               (Sample.toggle (Some "company_1") false)
                               (Sample.shop None "true")))).
Proof.
  split_and!; try (vm_compute; reflexivity).
  - apply NoDup_cells_true. vm_compute. reflexivity.
  - apply NoDup_cells_false. vm_compute. reflexivity.
  - apply NoDup_cells_true. vm_compute. reflexivity.
  - apply NoDup_cells_false. vm_compute. reflexivity.
Qed.

(** *** Counting registrations *)

Lemma count_registrations_found (cn : string) (ev : Events.event) (st : store)
    (d : sheet) (i : nat) :
  st !! cn = Some d →
  table_start (Events.id ev) d = Some i →
  Events.count_registrations cn ev st
  = (Ret {| Events.id := Events.id ev; Events.image := Events.image ev;
            Events.enabled := Events.enabled ev;
            Events.registrations := Z.max 0 (Z.of_nat (length (table_rows i d)) - 1) |},
     st).
Proof.
  intros Hd Hi. unfold Events.count_registrations, try_catch.
  erewrite bind_Ret; [done|]. unfold getTableData, with_table. by rewrite Hd, Hi.
Qed.

(** An accepted registration raises the number that GET computes for the
    event by one. *)
Lemma registration_counted (e : env) (b : Register.body) (st : store)
    (cn : string) (d : sheet) (i : nat) (ev : Events.event) :
  st !! cn = Some d →
  Events.id ev = to_string (Register.eventName b) →
  table_start (Events.id ev) d = Some i →
  is_blank (Register.registration_row e b) = false →
  let d' := insert_at (S i + length (table_rows i d)) (Register.registration_row e b) d in
  let st' := <[cn := d']> st in
  ∃ n ev1 ev2,
    Events.count_registrations cn ev st = (Ret ev1, st)
    ∧ Events.count_registrations cn ev st' = (Ret ev2, st')
    ∧ Events.registrations ev1 = Z.max 0 (Z.of_nat n - 1)
    ∧ Events.registrations ev2 = Z.max 0 (Z.of_nat (n + 1) - 1).
Proof.
  intros Hd Hid Hi Hnb d' st'.
  destruct (table_insert _ _ _ _ Hi Hnb) as [Hi' Hrows]. fold d' in Hi', Hrows.
  exists (length (table_rows i d)). eexists _, _.
  split; [by eapply count_registrations_found|].
  split; [eapply count_registrations_found; [by apply lookup_insert_eq|done]|].
  split; [done|]. simpl. by rewrite Hrows, length_app.
Qed.

(** C6. The number that GET /api/events reports is one less than the number
    of rows of the event's table, header included, and so counts the first
    row after the headers, which holds the banner and the enabled flag: an
    event that was just created, with no registrant, is reported with 1
    registration, and with 2 after the first registration. *)
Theorem C6_count_includes_first_row :
  let st := snd (Events.POST Sample.acme0 (Sample.new_event "Acme" "Launch" None)
                   Sample.fresh) in
  let listed (n : Z) :=
    json_ok (JObj [("events",
                    JArr [JObj [("id", JStr "Launch"); ("name", JStr "Launch");
                                ("image", JNull); ("enabled", JBool true);
                                ("registrations", JNum n)]])]) in
  st !! "Acme" = Some (Sample.launch_table "true")
  ∧ Events.GET Sample.acme0 (Some "Acme") st = (listed 1%Z, st)
  ∧ resp_status (fst (Register.POST Sample.env0 Sample.bob_ok st)) = 200
  ∧ fst (Events.GET Sample.acme0 (Some "Acme")
           (snd (Register.POST Sample.env0 Sample.bob_ok st))) = listed 2%Z.
Proof. vm_compute. split_and!; reflexivity. Qed.

(** ** Further properties *)

(** *** Registration: what is not found, what is left alone *)

Lemma uri_tokens_Lit (a : ascii) (s : string) :
  a ≠ "%"%char → uri_tokens (String a s) = (Lit a ::.) <$> uri_tokens s.
Proof.
  intros Ha.
  destruct a as [[] [] [] [] [] [] [] []]; try reflexivity. by destruct Ha.
Qed.

(** X3. [decodeURIComponent] returns a string without "%" as it is. *)
Theorem decode_plain_text (s : string) :
  ¬ In "%"%char (String.list_ascii_of_string s) →
  decodeURIComponent (Some s) = Some s.
Proof.
  unfold decodeURIComponent. simpl to_string.
  induction s as [|a s IH]; intros Hs; [done|].
  simpl in Hs. apply Decidable.not_or in Hs as [Ha Hs].
  rewrite uri_tokens_Lit by congruence.
  specialize (IH Hs). destruct (uri_tokens s) as [ts|]; [|done].
  simpl in *. by rewrite IH.
Qed.

Lemma decode_plain_text_witness : decodeURIComponent (Some "Acme Corp") = Some "Acme Corp".
Proof.
  apply (decode_plain_text "Acme Corp"). simpl. intros H.
  repeat (destruct H as [H|H]; [discriminate H|]). exact H.
Defined.

Lemma check_event_effect (e : env) (b : Register.body) (cn : string) (st : store) :
  (∃ o, Register.check_event e b cn st = (o, st))
  ∨ (∃ d n, st !! cn = Some d
            ∧ Register.check_event e b cn st
              = (Ret (Register.success e b),
                 <[cn := insert_at n (Register.registration_row e b) d]> st)).
Proof.
  unfold Register.check_event, getTableData, addToTable, with_table, mbind, io_bind, bind.
  destruct (st !! cn) as [d|] eqn:Hd; [|left; eauto].
  destruct (table_start (to_string (Register.eventName b)) d) as [i|] eqn:Hi;
    [|left; eauto].
  destruct (length (table_rows i d) =? 0); [left; eauto|].
  destruct (negb (Register.isEventEnabled (table_rows i d))); [left; eauto|].
  destruct (List.find _ _); [left; eauto|].
  rewrite Hd, Hi. right. eauto.
Qed.

Lemma check_company_effect (e : env) (b : Register.body) (cn : string) (st : store) :
  (∃ o, Register.check_company e b cn st = (o, st))
  ∨ (∃ d n, st !! cn = Some d
            ∧ Register.check_company e b cn st
              = (Ret (Register.success e b),
                 <[cn := insert_at n (Register.registration_row e b) d]> st)).
Proof.
  unfold Register.check_company, getSheetData, mbind, io_bind, bind.
  destruct (st !! "companies") as [cd|]; [|left; eauto].
  destruct (Register.find_company cn cd); [|left; eauto].
  destruct (negb (Register.isEnabled _)); [left; eauto|].
  destruct (st !! cn) as [d|] eqn:Hd; [|left; eauto].
  destruct (length d =? 0); [left; eauto|].
  unfold try_catch.
  destruct (check_event_effect e b cn st) as [[o Ho]|(d' & n & Hd' & Ho)]; rewrite Ho.
  - left. destruct o; eauto.
  - right. simplify_eq. eauto.
Qed.

(** X4. A registration request changes at most one sheet, the one named by
    the decoded company name, and only by adding the registration row to it;
    every other sheet, the companies table among them unless it has that
    name, is left as it was. *)
Theorem register_adds_at_most_one_row (e : env) (b : Register.body) (st : store)
    (k : string) :
  snd (Register.POST e b st) !! k = st !! k
  ∨ (decodeURIComponent (Register.rawCompanyName b) = Some k
     ∧ ∃ d n, st !! k = Some d
              ∧ snd (Register.POST e b st) !! k
                = Some (insert_at n (Register.registration_row e b) d)).
Proof.
  unfold Register.POST.
  destruct (decodeURIComponent (Register.rawCompanyName b)) as [cn|]; [|by left].
  destruct (Register.validate b cn); [by left|].
  unfold run, try_catch.
  destruct (check_company_effect e b cn st) as [[o Ho]|(d & n & Hd & Ho)]; rewrite Ho.
  - left. by destruct o.
  - simpl. destruct (decide (cn = k)) as [->|Hne].
    + right. split; [done|]. eexists _, _. split; [done|]. by rewrite lookup_insert_eq.
    + left. by rewrite lookup_insert_ne.
Qed.

Lemma POST_no_company (e : env) (b : Register.body) (st : store)
    (companyName : string) :
  decodeURIComponent (Register.rawCompanyName b) = Some companyName →
  Register.validate b companyName = None →
  st !! "companies" = None
  ∨ (∃ cd, st !! "companies" = Some cd ∧ Register.find_company companyName cd = None)
  ∨ (∃ cd company,
       st !! "companies" = Some cd
       ∧ Register.find_company companyName cd = Some company
       ∧ idx company 5 ≠ Some "false"
       ∧ (st !! companyName = None ∨ st !! companyName = Some [])) →
  Register.POST e b st = (json_error "Company not found" 404, st).
Proof.
  intros Hd Hv Hcases. rewrite (POST_valid e b st companyName Hd Hv).
  unfold run, try_catch, Register.check_company, mbind, io_bind, bind, getSheetData.
  destruct Hcases as [Hc|[(cd & Hc & Hf)|(cd & company & Hc & Hf & Hen & Hs)]].
  - by rewrite Hc.
  - by rewrite Hc, Hf.
  - rewrite Hc, Hf. unfold Register.isEnabled, seq_str.
    rewrite bool_decide_eq_false_2 by done. simpl.
    destruct Hs as [Hs|Hs]; by rewrite Hs.
Qed.

(** X5. A valid registration request for a company that the companies table
    does not list (or when there is no companies table), or for a listed,
    enabled company whose sheet is missing or still empty, is answered 404
    'Company not found' and changes nothing. *)
Theorem register_unknown_company (e : env) (b : Register.body) (st : store)
    (companyName : string) :
  decodeURIComponent (Register.rawCompanyName b) = Some companyName →
  Register.validate b companyName = None →
  st !! "companies" = None
  ∨ (∃ cd, st !! "companies" = Some cd ∧ Register.find_company companyName cd = None)
  ∨ (∃ cd company,
       st !! "companies" = Some cd
       ∧ Register.find_company companyName cd = Some company
       ∧ idx company 5 ≠ Some "false"
       ∧ (st !! companyName = None ∨ st !! companyName = Some [])) →
  Register.POST e b st = (json_error "Company not found" 404, st).
Proof. apply POST_no_company. Qed.

Lemma register_unknown_company_witness :
  Register.POST Sample.env0
    (Sample.bob (Some "Beta") (Some "bob@example.org") (Some "0123456789")) Cases.two
  = (json_error "Company not found" 404, Cases.two).
Proof.
  apply (register_unknown_company Sample.env0 _ Cases.two "Beta"); try reflexivity.
  right. right.
  exists [Companies.header;
          [Some "company_1"; Some "Acme"; Some "acme"; Some "$2a$10$secret"; None];
          [Some "company_2"; Some "Beta"; Some "beta"; Some "$2a$10$other"; None]],
         [Some "company_2"; Some "Beta"; Some "beta"; Some "$2a$10$other"; None].
  split; [reflexivity|]. split; [reflexivity|]. split; [discriminate|].
  right. reflexivity.
Defined.

Lemma POST_no_table (e : env) (b : Register.body) (st : store)
    (companyName : string) (cd : sheet) (company : row) (d : sheet) :
  decodeURIComponent (Register.rawCompanyName b) = Some companyName →
  Register.validate b companyName = None →
  st !! "companies" = Some cd →
  Register.find_company companyName cd = Some company →
  idx company 5 ≠ Some "false" →
  st !! companyName = Some d →
  d ≠ [] →
  table_start (to_string (Register.eventName b)) d = None →
  Register.POST e b st = (json_error "Event not found" 404, st).
Proof.
  intros Hd Hv Hc Hf Hen Hs Hne Ht. rewrite (POST_valid e b st companyName Hd Hv).
  unfold run, try_catch, Register.check_company, Register.check_event, mbind, io_bind,
    bind, getSheetData, getTableData, with_table.
  rewrite Hc, Hf. unfold Register.isEnabled, seq_str.
  rewrite bool_decide_eq_false_2 by done. simpl. rewrite Hs.
  destruct d as [|r0 d0]; [done|]. simpl.
  unfold try_catch, Register.check_event, getTableData, with_table, mbind, io_bind, bind.
  by rewrite Hs, Ht.
Qed.

(** X6. A valid registration request for a listed, enabled company whose
    sheet holds rows but no table of the requested event is answered 404
    'Event not found' and changes nothing. *)
Theorem register_unknown_event (e : env) (b : Register.body) (st : store)
    (companyName : string) (cd : sheet) (company : row) (d : sheet) :
  decodeURIComponent (Register.rawCompanyName b) = Some companyName →
  Register.validate b companyName = None →
  st !! "companies" = Some cd →
  Register.find_company companyName cd = Some company →
  idx company 5 ≠ Some "false" →
  st !! companyName = Some d →
  d ≠ [] →
  table_start (to_string (Register.eventName b)) d = None →
  Register.POST e b st = (json_error "Event not found" 404, st).
Proof. apply POST_no_table. Qed.

Lemma register_unknown_event_witness :
  Register.POST Sample.env0
    {| Register.rawCompanyName := Some "Acme"; Register.eventName := Some "Party";
       Register.name := Some "Bob"; Register.phone := Some "0123456789";
       Register.email := Some "bob@example.org"; Register.gender := Some "male";
       Register.college := Some "MIT"; Register.status := Some "Student";
       Register.nationalId := Some "1" |} Cases.two
  = (json_error "Event not found" 404, Cases.two).
Proof.
  apply (register_unknown_event Sample.env0 _ Cases.two "Acme"
           [Companies.header;
            [Some "company_1"; Some "Acme"; Some "acme"; Some "$2a$10$secret"; None];
            [Some "company_2"; Some "Beta"; Some "beta"; Some "$2a$10$other"; None]]
           [Some "company_1"; Some "Acme"; Some "acme"; Some "$2a$10$secret"; None]
           (Sample.launch_table "true")); (reflexivity || discriminate).
Defined.

Lemma isEventEnabled_after_registration (e : env) (b : Register.body) (rows : list row) :
  rows ≠ [] →
  Register.isEventEnabled rows = true →
  Register.isEventEnabled (rows ++ [Register.registration_row e b]) = true.
Proof.
  intros Hne Hen. destruct rows as [|h [|r1 t]]; [done|reflexivity|exact Hen].
Qed.

(** X7. Registering is not repeatable: when a valid request has been
    accepted, the same request sent again (at any later time) is answered
    400 'You are already registered for this event' and adds no second
    row. *)
Theorem register_twice (e e' : env) (b : Register.body) (st : store)
    (companyName : string) (companiesData : sheet) (company : row)
    (sheetData : sheet) (i : nat) :
  decodeURIComponent (Register.rawCompanyName b) = Some companyName →
  Register.validate b companyName = None →
  companyName ≠ "companies" →
  st !! "companies" = Some companiesData →
  Register.find_company companyName companiesData = Some company →
  idx company 5 ≠ Some "false" →
  st !! companyName = Some sheetData →
  table_start (to_string (Register.eventName b)) sheetData = Some i →
  table_rows i sheetData ≠ [] →
  Register.isEventEnabled (table_rows i sheetData) = true →
  (∀ r, r ∈ drop 1 (table_rows i sheetData) →
        idx r 2 ≠ Register.email b ∧ idx r 1 ≠ Register.phone b) →
  let st' := snd (Register.POST e b st) in
  fst (Register.POST e b st) = Register.success e b
  ∧ Register.POST e' b st'
    = (json_error "You are already registered for this event" 400, st').
Proof.
  intros Hd Hv Hcn Hc Hf Hen Hs Ht Hrows Hev Hnone st'.
  destruct (POST_fresh e b st companyName Hd Hv companiesData company Hc Hf
              sheetData i Hen Hs Ht Hrows Hev Hnone) as [HP _].
  subst st'. rewrite HP. cbn [fst snd]. split; [done|].
  destruct (table_insert _ _ _ (Register.registration_row e b) Ht
              (registration_row_not_blank e b companyName Hv)) as [Ht' Hrows'].
  eapply (POST_duplicate e' b _ companyName Hd Hv companiesData company).
  - by rewrite lookup_insert_ne.
  - done.
  - done.
  - apply lookup_insert_eq.
  - exact Ht'.
  - rewrite Hrows'. by destruct (table_rows i sheetData).
  - rewrite Hrows'. by apply isEventEnabled_after_registration.
  - exists (Register.registration_row e b). rewrite Hrows'. split.
    + destruct (table_rows i sheetData) as [|h t]; [done|]. simpl. rewrite drop_0.
      apply elem_of_app. right. by apply list_elem_of_singleton.
    + by left.
Qed.

Lemma register_twice_witness :
  Register.POST Sample.env0 Sample.bob_ok
    (snd (Register.POST Sample.env0 Sample.bob_ok (Sample.shop None "true")))
  = (json_error "You are already registered for this event" 400,
     snd (Register.POST Sample.env0 Sample.bob_ok (Sample.shop None "true"))).
Proof.
  refine (proj2
    (register_twice Sample.env0 Sample.env0 Sample.bob_ok (Sample.shop None "true") "Acme"
       [Sample.companies_header; Sample.acme_row None] (Sample.acme_row None)
       (Sample.launch_table "true") 0 _ _ _ _ _ _ _ _ _ _ _));
    try reflexivity; try discriminate.
  intros r Hr. vm_compute in Hr.
  apply list_elem_of_singleton in Hr as ->. split; discriminate.
Defined.

(** *** Companies: listing, deleting, updating *)

(** X8. A company that POST /api/companies has accepted is listed by the
    next GET /api/companies, after the companies that were listed before and
    with the id, name and username of the request, the uploaded image or
    [null], and enabled. *)
Theorem company_listed_after_POST (e e' : env) (b : Companies.post_body) (st : store) :
  is_admin e = true → is_admin e' = true →
  truthy (Companies.name b) = true →
  truthy (Companies.username b) = true →
  truthy (Companies.password b) = true →
  (∀ r, r ∈ drop 1 (companies_or_new st) → idx r 2 ≠ Companies.username b) →
  companies_or_new st ≠ [] →
  let id := "company_" +:+ pretty (now e 0) in
  let imageUrl :=
    uploaded e ("company_" +:+ id +:+ "_" +:+ pretty (now e 1) +:+ ".jpg")
             (Companies.image b) "companies" in
  fst (Companies.GET e' (snd (Companies.POST e b st)))
  = json_ok
      (JObj [("companies",
              JArr ((Companies.company_object <$> drop 1 (companies_or_new st))
                    ++ [JObj [("id", JStr id);
                              ("name", of_cell (Companies.name b));
                              ("username", of_cell (Companies.username b));
                              ("image", of_cell (or_else imageUrl None));
                              ("enabled", JBool true)]]))]).
Proof.
  intros Hadm Hadm' Hn Hu Hp Hfree Hne id imageUrl.
  destruct (POST_appends e b st Hadm Hn Hu Hp Hfree) as [Hrow _].
  unfold Companies.GET. rewrite Hadm'. cbn [negb].
  erewrite run_Ret
    by (erewrite bind_Ret by (by apply getSheetData_Some); reflexivity).
  cbn [fst]. do 4 f_equal.
  destruct (companies_or_new st) as [|h cs]; [done|].
  simpl. rewrite !drop_0. by rewrite fmap_app.
Qed.

Lemma company_listed_after_POST_witness :
  fst (Companies.GET Sample.admin0
         (snd (Companies.POST Sample.admin0 (Sample.new_company "Beta" "beta" "pw")
                 (Sample.shop None "true"))))
  = json_ok
      (JObj [("companies",
              JArr [Companies.company_object (Sample.acme_row None);
                    JObj [("id", JStr "company_1700000000000"); ("name", JStr "Beta");
                          ("username", JStr "beta"); ("image", JNull);
                          ("enabled", JBool true)]])]).
Proof.
  refine (company_listed_after_POST Sample.admin0 Sample.admin0
            (Sample.new_company "Beta" "beta" "pw") (Sample.shop None "true")
            _ _ _ _ _ _ _); try reflexivity; try discriminate.
  intros r Hr. vm_compute in Hr. apply list_elem_of_singleton in Hr as ->. discriminate.
Defined.

Lemma usernames_stay_unique_witness :
  NoDup (usernames (snd (Companies.PATCH FromOne Sample.admin0
                           (Sample.rename (Some "company_1") "acme2")
                           (Sample.shop None "true")))).
Proof.
  destruct (proj2 (usernames_stay_unique Sample.admin0
                     (Sample.new_company "Beta" "beta" "pw")
                     (Sample.rename (Some "company_1") "acme2") (Sample.shop None "true")
                     ltac:(apply NoDup_cells_true; vm_compute; reflexivity)
                     ltac:(apply NoDup_cells_true; vm_compute; reflexivity)))
    as [H400|Hnd].
  - vm_compute in H400. discriminate.
  - exact Hnd.
Defined.

(** X10. With rows numbered from 0, as the DELETE handler assumes, DELETE
    /api/companies for the id of a listed company removes the row of the
    first company with that id and nothing else: the header row and the rows
    of the other companies stay, and so does every other sheet, the deleted
    company's own sheet included. *)
Theorem company_deleted (e : env) (id : cell) (st : store) (data : sheet) (i : nat)
    (company : row) :
  is_admin e = true →
  truthy id = true →
  st !! "companies" = Some data →
  Companies.findIndex id (drop 1 data) = Some (i, company) →
  Companies.DELETE FromZero e id st
  = (json_ok (JObj [("success", JBool true);
                    ("message", JStr ("Company " +:+ to_string (idx company 1)
                                      +:+ " deleted successfully"))]),
     <["companies" := take 1 data ++ delete i (drop 1 data)]> st)
  ∧ ∀ k, k ≠ "companies" →
         snd (Companies.DELETE FromZero e id st) !! k = st !! k.
Proof.
  intros Hadm Hid Hst Hfind.
  assert (Companies.DELETE FromZero e id st
          = (json_ok (JObj [("success", JBool true);
                            ("message", JStr ("Company " +:+ to_string (idx company 1)
                                              +:+ " deleted successfully"))]),
             <["companies" := take 1 data ++ delete i (drop 1 data)]> st)) as HD.
  { unfold Companies.DELETE. rewrite Hadm, Hid. cbn [negb].
    apply run_Ret. erewrite bind_Ret by (by apply getSheetData_Some).
    rewrite Hfind. erewrite bind_Ret; [reflexivity|].
    unfold deleteRow. rewrite Hst. simpl. do 3 f_equal.
    destruct data as [|h cs]; [done|]. simpl. rewrite drop_0.
    by replace (i + 1) with (S i) by lia. }
  split; [done|]. intros k Hk. rewrite HD. simpl. by rewrite lookup_insert_ne.
Qed.

Lemma company_deleted_witness :
  snd (Companies.DELETE FromZero Sample.admin0 (Some "company_1") Cases.two)
  = <["companies" := [Companies.header;
                      [Some "company_2"; Some "Beta"; Some "beta"; Some "$2a$10$other";
                       None]]]> Cases.two.
Proof.
  refine (f_equal snd (proj1
    (company_deleted Sample.admin0 (Some "company_1") Cases.two
       [Companies.header;
        [Some "company_1"; Some "Acme"; Some "acme"; Some "$2a$10$secret"; None];
        [Some "company_2"; Some "Beta"; Some "beta"; Some "$2a$10$other"; None]]
       0 [Some "company_1"; Some "Acme"; Some "acme"; Some "$2a$10$secret"; None]
       _ _ _ _))); reflexivity.
Defined.



(** X12. The row that PATCH /api/companies writes back never differs from
    the old one in the id cell or beyond the enabled cell; name and username
    are the submitted ones when those are non-empty and the old ones
    otherwise, the password cell is the hash of a submitted password or the
    old cell, and the enabled cell is the submitted flag or the old cell. *)
Theorem patch_cells (e : env) (b : Companies.patch_body) (company : row) :
  let updated := Companies.updatedCompany e b company in
  idx updated 0 = idx company 0
  ∧ idx updated 1
    = (if truthy (Companies.p_name b) then Companies.p_name b else idx company 1)
  ∧ idx updated 2
    = (if truthy (Companies.p_username b) then Companies.p_username b
       else idx company 2)
  ∧ idx updated 3
    = (if truthy (Companies.p_password b)
       then Some (bcrypt_hash e (to_string (Companies.p_password b)) 10)
       else idx company 3)
  ∧ idx updated 5
    = match Companies.p_enabled b with
      | Some on => Some (if on then "true" else "false")
      | None => idx company 5
      end
  ∧ ∀ k, 5 < k → idx updated k = idx company k.
Proof.
  intros updated. subst updated.
  split_and!; [..|intros k Hk]; try apply updated_username; try apply updated_password;
    unfold Companies.updatedCompany;
    repeat match goal with
           | |- context [match ?c with _ => _ end] => destruct c
           end;
    rewrite ?(idx_set_idx_ne 5), ?(idx_set_idx_ne 4), ?(idx_set_idx_ne 3),
      ?(idx_set_idx_ne 2), ?(idx_set_idx_ne 1), ?idx_set_idx_eq by lia;
    rewrite ?(idx_set_idx_ne 4), ?(idx_set_idx_ne 3), ?(idx_set_idx_ne 2),
      ?(idx_set_idx_ne 1), ?idx_set_idx_eq by lia;
    rewrite ?(idx_set_idx_ne 3), ?(idx_set_idx_ne 2), ?(idx_set_idx_ne 1),
      ?idx_set_idx_eq by lia;
    rewrite ?(idx_set_idx_ne 2), ?(idx_set_idx_ne 1), ?idx_set_idx_eq by lia;
    rewrite ?(idx_set_idx_ne 1), ?idx_set_idx_eq by lia;
    reflexivity.
Qed.

(** *** Events: who may act, what is listed, what GET leaves alone *)



Lemma count_registrations_total (cn : string) (ev : Events.event) (st : store) :
  ∃ ev', Events.count_registrations cn ev st = (Ret ev', st)
         ∧ Events.id ev' = Events.id ev.
Proof.
  unfold Events.count_registrations, try_catch, getTableData, with_table, mbind,
    io_bind, bind.
  destruct (st !! cn) as [d|]; [|eauto].
  destruct (table_start (Events.id ev) d); eauto.
Qed.

Lemma count_all_total (cn : string) (evs : list Events.event) (st : store) :
  ∃ evs', Events.count_all cn evs st = (Ret evs', st)
          ∧ Events.id <$> evs' = Events.id <$> evs.
Proof.
  induction evs as [|ev evs (evs' & Hall & Hids)]; simpl.
  - by exists [].
  - destruct (count_registrations_total cn ev st) as (ev' & Hev & Hid).
    exists (ev' :: evs'). split.
    + erewrite bind_Ret by exact Hev. erewrite bind_Ret by exact Hall. done.
    + rewrite !fmap_cons. by rewrite Hid, Hids.
Qed.

Lemma event_at_name (data : sheet) (i : nat) (ev : Events.event) :
  ev ∈ Events.event_at data i →
  Events.id ev ≠ "" ∧ startsWith "ID" (Events.id ev) = false
  ∧ data !! i = Some [Some (Events.id ev)].
Proof.
  unfold Events.event_at.
  destruct (data !! i) as [[|c [|c' r]]|] eqn:Hi;
    try solve [intros Hnil; by apply elem_of_nil in Hnil].
  destruct (truthy c) eqn:Hc; cbn [andb];
    [|intros Hnil; by apply elem_of_nil in Hnil].
  destruct (startsWith "ID" (to_string c)) eqn:Hid; cbn [negb];
    [intros Hnil; by apply elem_of_nil in Hnil|].
  intros ->%list_elem_of_singleton. cbn [Events.id].
  destruct c as [n|]; [|done]. cbn [to_string] in *. split; [|done].
  intros ->. done.
Qed.

(** X14. GET /api/events lists an event for exactly the rows of the sheet
    that consist of one non-empty cell not starting with "ID": every listed
    name is non-empty, does not start with "ID" and is such a row of the
    sheet; counting the registrations changes neither the names nor their
    order. *)
Theorem listed_event_names (companyName : string) (data : sheet) (st : store) :
  ∃ events,
    Events.count_all companyName (Events.find_events data) st = (Ret events, st)
    ∧ Events.id <$> events = Events.id <$> Events.find_events data
    ∧ Forall (λ n, n ≠ "" ∧ startsWith "ID" n = false ∧ [Some n] ∈ data)
             (Events.id <$> events).
Proof.
  destruct (count_all_total companyName (Events.find_events data) st)
    as (events & Hall & Hids).
  exists events. split; [done|]. split; [done|]. rewrite Hids.
  apply Forall_forall. intros n (ev & -> & Hev)%list_elem_of_fmap.
  unfold Events.find_events in Hev.
  apply list_elem_of_bind in Hev as (i & Hev & _).
  apply event_at_name in Hev as (? & ? & Hi).
  split; [done|]. split; [done|]. by eapply list_elem_of_lookup_2.
Qed.

(** X15. The two GET handlers only read: whatever the session, the query
    and the store, GET /api/companies and GET /api/events return the store
    as they found it. *)
Theorem GET_reads_only (e : env) (raw : cell) (st : store) :
  snd (Companies.GET e st) = st ∧ snd (Events.GET e raw st) = st.
Proof.
  split.
  - unfold Companies.GET. destruct (negb (is_admin e)); [done|].
    unfold run, mbind, io_bind, bind, getSheetData. by destruct (st !! "companies").
  - unfold Events.GET. destruct (session e) as [u|]; [|done].
    destruct (negb (truthy raw)); [done|].
    destruct (decodeURIComponent raw) as [cn|]; [|done].
    destruct (foreign u cn); [done|].
    unfold run. unfold mbind at 1, io_bind at 1, bind at 1, getSheetData.
    destruct (st !! cn) as [d|]; [|done].
    destruct (count_all_total cn (Events.find_events d) st) as (evs & Hall & _).
    erewrite bind_Ret by exact Hall. done.
Qed.

(** *** Events: switching an event off and on, deleting it *)

Section TableRows.

Context {A : Type}.

Lemma take_while_length (p : A → bool) (l : list A) :
  length (take_while p l) ≤ length l.
Proof. induction l as [|x l IH]; simpl; [done|]. destruct (p x); simpl; lia. Qed.

Lemma take_while_update (p : A → bool) (l : list A) (k : nat) (y : A) :
  k < length (take_while p l) → p y = true →
  take_while p (<[k := y]> l) = <[k := y]> (take_while p l).
Proof.
  revert k. induction l as [|x l IH]; intros k Hk Hy; simpl in *; [lia|].
  destruct (p x) eqn:Hx; simpl in Hk; [|lia].
  destruct k as [|k]; simpl.
  - by rewrite Hy.
  - rewrite Hx. f_equal. apply IH; [lia|done].
Qed.

Lemma list_find_update (P : A → Prop) `{!∀ x, Decision (P x)}
    (l : list A) (i j : nat) (x y : A) :
  list_find P l = Some (i, x) → i < j →
  list_find P (<[j := y]> l) = Some (i, x).
Proof.
  revert i j. induction l as [|z l IH]; intros i j Hf Hij; [done|].
  destruct j as [|j]; [lia|]. simpl in *.
  destruct (decide (P z)); [done|].
  destruct (list_find P l) as [[i' w]|] eqn:Hl; simpl in Hf; [|done].
  injection Hf as <- <-. rewrite (IH i' j) by (done || lia). done.
Qed.

End TableRows.

Lemma table_write (t : string) (d : sheet) (i k : nat) (new : row) :
  table_start t d = Some i →
  k < length (table_rows i d) →
  is_blank new = false →
  table_start t (write_row (S i + k) new d) = Some i
  ∧ table_rows i (write_row (S i + k) new d) = <[k := new]> (table_rows i d).
Proof.
  intros Hs Hk Hnew.
  assert (S i + k < length d) as Hlt.
  { pose proof (take_while_length (λ r, negb (is_blank r)) (drop (S i) d)) as Hle.
    unfold table_rows in Hk. rewrite length_drop in Hle. lia. }
  unfold write_row. rewrite decide_True by done. split.
  - unfold table_start in *.
    destruct (list_find _ d) as [[j w]|] eqn:Hf; simplify_eq/=.
    erewrite list_find_update; [done..|lia].
  - unfold table_rows. rewrite drop_insert_ge by lia.
    replace (S i + k - S i) with k by lia.
    apply take_while_update; [done|by rewrite Hnew].
Qed.

Lemma updateTableData_found (cn t : string) (k : nat) (r : row) (st : store)
    (d : sheet) (i : nat) :
  st !! cn = Some d → table_start t d = Some i →
  updateTableData cn t k r st = (Ret (), <[cn := write_row (S i + k) r d]> st).
Proof. unfold updateTableData, with_table. by intros -> ->. Qed.

Lemma getTableData_Some (cn t : string) (st : store) (d : sheet) (i : nat) :
  st !! cn = Some d → table_start t d = Some i →
  getTableData cn t st = (Ret (table_rows i d), st).
Proof. unfold getTableData, with_table. by intros -> ->. Qed.

Lemma not_blank_cell (r : row) (j : nat) (v : cell) :
  idx r j = v → truthy v = true → is_blank r = false.
Proof.
  intros Hj Hv. destruct (is_blank r) eqn:Hb; [|done].
  unfold is_blank in Hb. rewrite forallb_forall in Hb.
  unfold idx in Hj. destruct (r !! j) as [c|] eqn:Hc; simpl in Hj; subst.
  - apply list_elem_of_lookup_2, list_elem_of_In, Hb in Hc. by rewrite Hv in Hc.
  - done.
Qed.

Lemma length_set_idx (k : nat) (v : cell) (r : row) :
  length (set_idx k v r) = max (length r) (S k).
Proof.
  unfold set_idx. case_decide.
  - rewrite length_insert. lia.
  - rewrite !length_app, length_replicate. simpl. lia.
Qed.

Lemma flag_truthy (on : bool) : truthy (Events.flag on) = true.
Proof. by destruct on. Qed.

Section EventFlag.

Variable e : env.
Variable u : user.
Variable b : Events.patch_body.
Variable st : store.
Variable d : sheet.
Variable i : nat.
Variables hs r1 : row.
Variable rest : list row.
Variable on : bool.

Let cn := to_string (Events.u_companyName b).
Let en := to_string (Events.u_eventName b).

Hypothesis signed_in : session e = Some u.
Hypothesis has_company : truthy (Events.u_companyName b) = true.
Hypothesis has_event : truthy (Events.u_eventName b) = true.
Hypothesis own : foreign u cn = false.
Hypothesis no_image : Events.u_image b = None.
Hypothesis flag_given : Events.u_enabled b = Some on.
Hypothesis sheet_found : st !! cn = Some d.
Hypothesis table_found : table_start en d = Some i.
Hypothesis rows : table_rows i d = hs :: r1 :: rest.

(** The header row has an Enabled column. *)
Lemma PATCH_sets_flag (k : nat) :
  indexOf "Enabled" hs = Some k →
  let d' := write_row (S i + 1) (set_idx k (Events.flag on) r1) d in
  (∃ r, Events.PATCH e b st = (r, <[cn := d']> st) ∧ resp_status r = 200)
  ∧ table_start en d' = Some i
  ∧ table_rows i d' = hs :: set_idx k (Events.flag on) r1 :: rest.
Proof using All.
  intros Hk d'. subst d'.
  destruct (table_write en d i 1 (set_idx k (Events.flag on) r1) table_found)
    as [Hs' Hr'].
  { rewrite rows. simpl. lia. }
  { eapply not_blank_cell; [apply idx_set_idx_eq|apply flag_truthy]. }
  split; [|split; [done|by rewrite Hr', rows]].
  unfold Events.PATCH. rewrite signed_in, has_company, has_event. fold cn en.
  rewrite own. cbn [negb orb].
  eexists. split.
  - apply run_Ret. erewrite bind_Ret by (by eapply getTableData_Some).
    rewrite rows, no_image, flag_given. cbn [truthy]. simpl default. rewrite Hk.
    erewrite bind_Ret by (by eapply updateTableData_found). reflexivity.
  - reflexivity.
Qed.

(** The header row has no Enabled column yet. *)
Lemma PATCH_adds_flag :
  indexOf "Enabled" hs = None →
  let d' := write_row (S i + 1) (r1 ++ [Events.flag on])
              (write_row (S i + 0) (hs ++ [Some "Enabled"]) d) in
  (∃ r, Events.PATCH e b st = (r, <[cn := d']> st) ∧ resp_status r = 200)
  ∧ table_start en d' = Some i
  ∧ table_rows i d' = (hs ++ [Some "Enabled"]) :: (r1 ++ [Events.flag on]) :: rest.
Proof using All.
  intros Hk d'. subst d'.
  destruct (table_write en d i 0 (hs ++ [Some "Enabled"]) table_found) as [Hs1 Hr1].
  { rewrite rows. simpl. lia. }
  { apply (not_blank_cell _ (length hs) (Some "Enabled")); [|done].
    unfold idx. by rewrite lookup_app_r, Nat.sub_diag by lia. }
  assert (table_rows i (write_row (S i + 0) (hs ++ [Some "Enabled"]) d)
          = (hs ++ [Some "Enabled"]) :: r1 :: rest) as Hr1'
    by (by rewrite Hr1, rows).
  clear Hr1. rename Hr1' into Hr1.
  destruct (table_write en _ i 1 (r1 ++ [Events.flag on]) Hs1) as [Hs2 Hr2].
  { rewrite Hr1. simpl. lia. }
  { apply (not_blank_cell _ (length r1) (Events.flag on)); [|apply flag_truthy].
    unfold idx. by rewrite lookup_app_r, Nat.sub_diag by lia. }
  assert (table_rows i (write_row (S i + 1) (r1 ++ [Events.flag on])
                         (write_row (S i + 0) (hs ++ [Some "Enabled"]) d))
          = (hs ++ [Some "Enabled"]) :: (r1 ++ [Events.flag on]) :: rest) as Hr2'
    by (by rewrite Hr2, Hr1).
  split; [|split; [done|done]].
  unfold Events.PATCH. rewrite signed_in, has_company, has_event. fold cn en.
  rewrite own. cbn [negb orb].
  eexists. split.
  - apply run_Ret. erewrite bind_Ret by (by eapply getTableData_Some).
    rewrite rows, no_image, flag_given. cbn [truthy]. simpl default. rewrite Hk.
    erewrite bind_Ret by (by eapply updateTableData_found).
    erewrite bind_Ret
      by (eapply updateTableData_found; [apply lookup_insert_eq|exact Hs1]).
    rewrite insert_insert_eq. reflexivity.
  - reflexivity.
Qed.

End EventFlag.



(** X17. PATCH /api/events with an enabled flag, for an event whose header
    row has no Enabled column: the column is added at the end of the header
    row, the flag is appended to the first row, the other rows stay, and the
    registration handler reads the flag afterwards as the event's state. *)
Theorem event_switch_adds_column (e : env) (u : user) (b : Events.patch_body)
    (st : store) (d : sheet) (i : nat) (hs r1 : row) (rest : list row) (on : bool) :
  session e = Some u →
  truthy (Events.u_companyName b) = true →
  truthy (Events.u_eventName b) = true →
  foreign u (to_string (Events.u_companyName b)) = false →
  Events.u_image b = None →
  Events.u_enabled b = Some on →
  st !! to_string (Events.u_companyName b) = Some d →
  table_start (to_string (Events.u_eventName b)) d = Some i →
  table_rows i d = hs :: r1 :: rest →
  indexOf "Enabled" hs = None →
  let st' := snd (Events.PATCH e b st) in
  let flag := Some (if on then "true" else "false") in
  resp_status (fst (Events.PATCH e b st)) = 200
  ∧ getTableData (to_string (Events.u_companyName b))
      (to_string (Events.u_eventName b)) st'
    = (Ret ((hs ++ [Some "Enabled"]) :: (r1 ++ [flag]) :: rest), st')
  ∧ Register.isEventEnabled ((hs ++ [Some "Enabled"]) :: (r1 ++ [flag]) :: rest) = on.
Proof.
  intros Hs Hc He Hown Him Hon Hd Hi Hrows Hk st' flag.
  destruct (PATCH_adds_flag e u b st d i hs r1 rest on Hs Hc He Hown Him Hon Hd Hi
              Hrows Hk) as ((r & HP & Hr) & Hi' & Hrows').
  subst st'. rewrite HP. cbn [fst snd]. split; [done|]. split.
  { erewrite getTableData_Some; [|apply lookup_insert_eq|exact Hi']. by rewrite Hrows'. }
  unfold Register.isEventEnabled. simpl lookup. subst flag. cbv iota beta.
  rewrite length_app. simpl length.
  replace (0 <? length r1 + 1) with true by (symmetry; apply Nat.ltb_lt; lia).
  replace (length r1 + 1 - 1) with (length r1) by lia.
  unfold idx. rewrite lookup_app_r, Nat.sub_diag by lia. by destruct on.
Qed.

Lemma event_switch_adds_column_witness :
  getTableData "Acme" "Old"
    (snd (Events.PATCH Sample.acme0 (Cases.set_event "Acme" "Old" false)
            {[ "Acme" := [[Some "Old"]; [Some "Name"; Some "Phone"; Some "Email"];
                          [Some "Ann"; Some "0123456789"; Some "ann@example.org"]] ]}))
  = (Ret [[Some "Name"; Some "Phone"; Some "Email"; Some "Enabled"];
          [Some "Ann"; Some "0123456789"; Some "ann@example.org"; Some "false"]],
     snd (Events.PATCH Sample.acme0 (Cases.set_event "Acme" "Old" false)
            {[ "Acme" := [[Some "Old"]; [Some "Name"; Some "Phone"; Some "Email"];
                          [Some "Ann"; Some "0123456789"; Some "ann@example.org"]] ]})).
Proof.
  refine (proj1 (proj2
    (event_switch_adds_column Sample.acme0 Sample.acme (Cases.set_event "Acme" "Old" false)
       {[ "Acme" := [[Some "Old"]; [Some "Name"; Some "Phone"; Some "Email"];
                     [Some "Ann"; Some "0123456789"; Some "ann@example.org"]] ]}
       [[Some "Old"]; [Some "Name"; Some "Phone"; Some "Email"];
        [Some "Ann"; Some "0123456789"; Some "ann@example.org"]]
       0 [Some "Name"; Some "Phone"; Some "Email"]
       [Some "Ann"; Some "0123456789"; Some "ann@example.org"] [] false
       _ _ _ _ _ _ _ _ _ _))); reflexivity.
Defined.

(** X18. Switching an event off closes its registration. Let an authorised
    PATCH /api/events carry enabled false and no image, for an event whose
    table has a first row and whose header row has an 'Enabled' column
    beyond which the first row has no cell (as in the tables made by POST
    /api/events), in the sheet of a company that is not called 'companies'.
    Afterwards a registration request for that company and event that
    passes the field validations, the company being listed in the companies
    table and not disabled, is answered 403 'Registration has ended for this
    event' and adds no row. *)
Theorem registration_closed_after_switch_off (e e' : env) (u : user)
    (b : Events.patch_body) (rb : Register.body) (st : store) (cd : sheet)
    (company : row) (d : sheet) (i : nat) (hs r1 : row) (rest : list row) (k : nat) :
  session e = Some u →
  truthy (Events.u_companyName b) = true →
  truthy (Events.u_eventName b) = true →
  foreign u (to_string (Events.u_companyName b)) = false →
  Events.u_image b = None →
  Events.u_enabled b = Some false →
  st !! to_string (Events.u_companyName b) = Some d →
  table_start (to_string (Events.u_eventName b)) d = Some i →
  table_rows i d = hs :: r1 :: rest →
  indexOf "Enabled" hs = Some k →
  length r1 ≤ S k →
  decodeURIComponent (Register.rawCompanyName rb)
  = Some (to_string (Events.u_companyName b)) →
  Register.validate rb (to_string (Events.u_companyName b)) = None →
  to_string (Register.eventName rb) = to_string (Events.u_eventName b) →
  to_string (Events.u_companyName b) ≠ "companies" →
  st !! "companies" = Some cd →
  Register.find_company (to_string (Events.u_companyName b)) cd = Some company →
  idx company 5 ≠ Some "false" →
  let st' := snd (Events.PATCH e b st) in
  Register.POST e' rb st'
  = (json_error "Registration has ended for this event" 403, st').
Proof.
  intros Hs Hc He Hown Him Hon Hd Hi Hrows Hk Hlen Hdec Hval Hev Hcn Hcd Hf Hen st'.
  destruct (PATCH_sets_flag e u b st d i hs r1 rest false Hs Hc He Hown Him Hon Hd Hi
              Hrows k Hk) as ((r & HP & Hr) & Hi' & Hrows').
  subst st'. rewrite HP. cbn [snd].
  eapply (POST_event_disabled e' rb _ _ Hdec Hval cd company).
  - by rewrite lookup_insert_ne.
  - done.
  - done.
  - apply lookup_insert_eq.
  - rewrite Hev. exact Hi'.
  - by rewrite Hrows'.
  - by rewrite Hrows'.
  - intros Hnil. apply (f_equal length) in Hnil. rewrite length_set_idx in Hnil.
    simpl in Hnil. lia.
  - rewrite length_set_idx. replace (max (length r1) (S k)) with (S k) by lia.
    simpl. by rewrite Nat.sub_0_r, idx_set_idx_eq.
Qed.

Lemma registration_closed_after_switch_off_witness :
  Register.POST Sample.env0 Sample.bob_ok
    (snd (Events.PATCH Sample.acme0 (Cases.set_event "Acme" "Launch" false) Cases.two))
  = (json_error "Registration has ended for this event" 403,
     snd (Events.PATCH Sample.acme0 (Cases.set_event "Acme" "Launch" false) Cases.two)).
Proof.
  refine (registration_closed_after_switch_off Sample.acme0 Sample.env0 Sample.acme
            (Cases.set_event "Acme" "Launch" false) Sample.bob_ok Cases.two
            [Companies.header;
             [Some "company_1"; Some "Acme"; Some "acme"; Some "$2a$10$secret"; None];
             [Some "company_2"; Some "Beta"; Some "beta"; Some "$2a$10$other"; None]]
            [Some "company_1"; Some "Acme"; Some "acme"; Some "$2a$10$secret"; None]
            (Sample.launch_table "true") 0 Events.headers
            [Some ""; Some ""; Some ""; Some ""; Some ""; Some ""; Some ""; Some "";
             Some ""; Some "true"] [] 9 _ _ _ _ _ _ _ _ _ _ _ _ _ _ _ _ _ _);
    try reflexivity; discriminate.
Defined.

Lemma table_start_removed (t : string) (d : sheet) (i n : nat) :
  (∀ j, d !! j = Some [Some t] → j = i) →
  table_start t (take i d ++ drop (S i + n) d) = None.
Proof.
  intros Huniq. unfold table_start.
  assert (list_find (λ r : row, r = [Some t]) (take i d ++ drop (S i + n) d) = None)
    as ->; [|done].
  apply list_find_None, Forall_forall. intros r Hr ->.
  apply elem_of_app in Hr as [Hr|Hr]; apply list_elem_of_lookup in Hr as [j Hj].
  - apply lookup_take_Some in Hj as [Hj Hlt]. apply Huniq in Hj. lia.
  - rewrite lookup_drop in Hj. apply Huniq in Hj. lia.
Qed.

Lemma DELETE_event_effect (e : env) (u : user) (company ev : cell) (st : store)
    (d : sheet) (i : nat) :
  session e = Some u →
  truthy company = true → truthy ev = true →
  foreign u (to_string company) = false →
  st !! to_string company = Some d →
  table_start (to_string ev) d = Some i →
  Events.DELETE e company ev st
  = (json_ok (JObj [("success", JBool true);
                    ("message", JStr ("Event " +:+ to_string ev
                                      +:+ " deleted successfully"))]),
     <[to_string company := take i d ++ drop (S i + length (table_rows i d)) d]> st).
Proof.
  intros Hs Hc He Hown Hd Hi. unfold Events.DELETE.
  rewrite Hs, Hc, He, Hown. cbn [negb orb]. apply run_Ret.
  erewrite bind_Ret; [reflexivity|]. unfold deleteTable, with_table. by rewrite Hd, Hi.
Qed.

(** X19. A deleted event takes no registrations. Let an authorised DELETE
    /api/events name an event that has a table in the sheet of a company
    not called 'companies', no other row of the sheet being a title row
    with that name. Afterwards the event's table can no longer be read, and
    a registration request for that company and event that passes the field
    validations, the company being listed in the companies table and not
    disabled, is answered 404 and changes nothing. *)
Theorem event_deleted (e e' : env) (u : user) (company ev : cell)
    (rb : Register.body) (st : store) (cd : sheet) (crow : row) (d : sheet) (i : nat) :
  session e = Some u →
  truthy company = true → truthy ev = true →
  foreign u (to_string company) = false →
  st !! to_string company = Some d →
  table_start (to_string ev) d = Some i →
  (∀ j, d !! j = Some [Some (to_string ev)] → j = i) →
  decodeURIComponent (Register.rawCompanyName rb) = Some (to_string company) →
  Register.validate rb (to_string company) = None →
  to_string (Register.eventName rb) = to_string ev →
  to_string company ≠ "companies" →
  st !! "companies" = Some cd →
  Register.find_company (to_string company) cd = Some crow →
  idx crow 5 ≠ Some "false" →
  let st' := snd (Events.DELETE e company ev st) in
  getTableData (to_string company) (to_string ev) st' = (Throw, st')
  ∧ resp_status (fst (Register.POST e' rb st')) = 404
  ∧ snd (Register.POST e' rb st') = st'.
Proof.
  intros Hs Hc He Hown Hd Hi Huniq Hdec Hval Hev Hcn Hcd Hf Hen st'.
  subst st'. rewrite (DELETE_event_effect e u company ev st d i) by done. cbn [snd].
  pose proof (table_start_removed (to_string ev) d i (length (table_rows i d)) Huniq)
    as Hgone.
  split.
  { unfold getTableData, with_table. by rewrite lookup_insert_eq, Hgone. }
  set (d' := take i d ++ drop (S i + length (table_rows i d)) d) in *.
  destruct (decide (d' = [])) as [Hnil|Hne].
  - rewrite (POST_no_company e' rb _ (to_string company) Hdec Hval); [done|].
    right. right. exists cd, crow. rewrite lookup_insert_ne by done.
    split; [done|]. split; [done|]. split; [done|]. right.
    by rewrite lookup_insert_eq, Hnil.
  - rewrite (POST_no_table e' rb _ (to_string company) cd crow d' Hdec Hval); try done.
    + by rewrite lookup_insert_ne.
    + apply lookup_insert_eq.
    + by rewrite Hev.
Qed.

Lemma event_deleted_witness :
  getTableData "Acme" "Launch"
    (snd (Events.DELETE Sample.acme0 (Some "Acme") (Some "Launch") Cases.two))
  = (Throw, snd (Events.DELETE Sample.acme0 (Some "Acme") (Some "Launch") Cases.two)).
Proof.
  refine (proj1
    (event_deleted Sample.acme0 Sample.env0 Sample.acme (Some "Acme") (Some "Launch")
       Sample.bob_ok Cases.two
       [Companies.header;
        [Some "company_1"; Some "Acme"; Some "acme"; Some "$2a$10$secret"; None];
        [Some "company_2"; Some "Beta"; Some "beta"; Some "$2a$10$other"; None]]
       [Some "company_1"; Some "Acme"; Some "acme"; Some "$2a$10$secret"; None]
       (Sample.launch_table "true") 0 _ _ _ _ _ _ _ _ _ _ _ _ _ _));
    try reflexivity; try discriminate.
  intros [|[|[|j]]] Hj; try reflexivity; vm_compute in Hj; discriminate Hj.
Defined.

(** *** Signing in *)

Lemma find_In_true {A} (p : A → bool) (l : list A) (x : A) :
  List.find p l = Some x → x ∈ l ∧ p x = true.
Proof.
  intros [Hin Hp]%List.find_some. split; [by apply list_elem_of_In|done].
Qed.

Lemma authorize_Granted (cfg : Auth.config) (c : Auth.credentials) (st : store)
    (a : Auth.account) :
  Auth.authorize cfg (Some c) st = Auth.Granted a →
  (Auth.type c = Some "admin"
   ∧ Auth.username c = Auth.adminUsername cfg
   ∧ Auth.password c = Auth.adminPassword cfg
   ∧ a = Auth.administrator)
  ∨ (Auth.type c = Some "company"
     ∧ ∃ companies company,
         st !! "companies" = Some companies
         ∧ company ∈ drop 1 companies
         ∧ idx company 2 = Auth.username c
         ∧ idx company 5 ≠ Some "false"
         ∧ Auth.compare cfg (to_string (Auth.password c)) (idx company 3) = Some true
         ∧ Auth.id a = idx company 0 ∧ Auth.name a = idx company 1
         ∧ Auth.kind a = "company" ∧ Auth.enabled a = Some true).
Proof.
  unfold Auth.authorize.
  destruct (negb (truthy (Auth.username c)) || negb (truthy (Auth.password c))
            || negb (truthy (Auth.type c))); [done|].
  unfold seq_str. case_bool_decide as Hadmin.
  { destruct (bool_decide (Auth.username c = _)) eqn:Hu; [|done].
    destruct (bool_decide (Auth.password c = _)) eqn:Hp; [|done].
    apply bool_decide_eq_true_1 in Hu, Hp. intros [= <-]. by left. }
  case_bool_decide as Hcompany; [|done].
  unfold getSheetData. destruct (st !! "companies") as [companies|] eqn:Hst; [|done].
  destruct (List.find _ (drop 1 companies)) as [company|] eqn:Hfind; [|done].
  apply find_In_true in Hfind as [Hin Huser%bool_decide_eq_true_1].
  case_bool_decide as Hoff; [done|]. cbn [negb].
  destruct (Auth.compare cfg _ _) as [[|]|] eqn:Hcmp; try done.
  intros [= <-]. right. split; [done|]. exists companies, company. done.
Qed.


(** X20. [authorize] grants a user in two cases only: the type is 'admin'
    and name and password are the administrator's of the environment (the
    store is not consulted); or the type is 'company' and a company row
    below the header has the username, is not disabled, and [bcrypt.compare]
    accepts the password against its password cell, the user then carrying
    that row's id and name, the type 'company' and enabled true. *)
Theorem authorize_sound (cfg : Auth.config) (c : Auth.credentials) (st : store)
    (a : Auth.account) :
  Auth.authorize cfg (Some c) st = Auth.Granted a →
  (Auth.type c = Some "admin"
   ∧ Auth.username c = Auth.adminUsername cfg
   ∧ Auth.password c = Auth.adminPassword cfg
   ∧ a = Auth.administrator)
  ∨ (Auth.type c = Some "company"
     ∧ ∃ companies company,
         st !! "companies" = Some companies
         ∧ company ∈ drop 1 companies
         ∧ idx company 2 = Auth.username c
         ∧ idx company 5 ≠ Some "false"
         ∧ Auth.compare cfg (to_string (Auth.password c)) (idx company 3) = Some true
         ∧ Auth.id a = idx company 0 ∧ Auth.name a = idx company 1
         ∧ Auth.kind a = "company" ∧ Auth.enabled a = Some true).
Proof. apply authorize_Granted. Qed.

Lemma authorize_sound_witness :
  Auth.type {| Auth.username := Some "acme"; Auth.password := Some "secret";
               Auth.type := Some "company" |} = Some "company"
  ∧ ∃ companies company,
      Cases.two !! "companies" = Some companies
      ∧ company ∈ drop 1 companies
      ∧ idx company 2 = Some "acme"
      ∧ idx company 5 ≠ Some "false"
      ∧ Auth.compare Cases.cfg0 "secret" (idx company 3) = Some true
      ∧ Some "company_1" = idx company 0 ∧ Some "Acme" = idx company 1
      ∧ "company" = "company" ∧ Some true = Some true.
Proof.
  destruct (authorize_sound Cases.cfg0
              {| Auth.username := Some "acme"; Auth.password := Some "secret";
                 Auth.type := Some "company" |} Cases.two
              {| Auth.id := Some "company_1"; Auth.name := Some "Acme";
                 Auth.email := None; Auth.image := None; Auth.kind := "company";
                 Auth.enabled := Some true |} eq_refl) as [[H _]|H].
  - discriminate H.
  - exact H.
Defined.

Lemma disabled_company_refused_aux (cfg : Auth.config) (c : Auth.credentials)
    (st : store) (companies : sheet) (company : row) :
  truthy (Auth.username c) = true →
  truthy (Auth.password c) = true →
  Auth.type c = Some "company" →
  st !! "companies" = Some companies →
  List.find (λ r, bool_decide (idx r 2 = Auth.username c)) (drop 1 companies)
  = Some company →
  idx company 5 = Some "false" →
  Auth.authorize cfg (Some c) st = Auth.Thrown (Some Auth.disabled_message).
Proof.
  intros Hu Hp Hty Hst Hfind Hoff. unfold Auth.authorize, getSheetData, seq_str.
  rewrite Hu, Hp, Hty, Hst, Hfind, Hoff. reflexivity.
Qed.

(** X21. A company whose row has 'false' in the enabled column cannot sign
    in: whatever the password and whatever [bcrypt.compare] answers,
    [authorize] throws 'Company account is disabled. Please contact the
    administrator.'. *)
Theorem disabled_company_refused (cfg : Auth.config) (c : Auth.credentials)
    (st : store) (companies : sheet) (company : row) :
  truthy (Auth.username c) = true →
  truthy (Auth.password c) = true →
  Auth.type c = Some "company" →
  st !! "companies" = Some companies →
  List.find (λ r, bool_decide (idx r 2 = Auth.username c)) (drop 1 companies)
  = Some company →
  idx company 5 = Some "false" →
  Auth.authorize cfg (Some c) st = Auth.Thrown (Some Auth.disabled_message).
Proof. apply disabled_company_refused_aux. Qed.

Lemma disabled_company_refused_witness :
  Auth.authorize Cases.cfg0 (Cases.login "acme" "secret" "company")
    (Sample.shop (Some "false") "true")
  = Auth.Thrown (Some Auth.disabled_message).
Proof.
  apply (disabled_company_refused Cases.cfg0 _ (Sample.shop (Some "false") "true")
           [Sample.companies_header; Sample.acme_row (Some "false")]
           (Sample.acme_row (Some "false"))); reflexivity.
Defined.

Lemma find_app_skip {A} (p : A → bool) (l1 l2 : list A) :
  Forall (λ x, p x = false) l1 → List.find p (l1 ++ l2) = List.find p l2.
Proof. induction 1 as [|x l Hx _ IH]; simpl; [done|]. by rewrite Hx. Qed.

(** X22. Disabling a company locks it out: after a PATCH /api/companies
    that an administrator sends with only id and enabled false (rows
    numbered from 1, as the PATCH handler assumes), a sign-in with the
    username of that company is refused with the 'disabled' error, whatever
    the password, provided no other company has that username. *)
Theorem disabled_company_locked_out (e : env) (b : Companies.patch_body) (st : store)
    (data : sheet) (i : nat) (company : row) (cfg : Auth.config)
    (c : Auth.credentials) :
  is_admin e = true →
  truthy (Companies.p_id b) = true →
  Companies.p_name b = None → Companies.p_username b = None →
  Companies.p_password b = None → Companies.p_image b = None →
  Companies.p_enabled b = Some false →
  st !! "companies" = Some data →
  Companies.findIndex (Companies.p_id b) (drop 1 data) = Some (i, company) →
  truthy (Auth.username c) = true →
  truthy (Auth.password c) = true →
  Auth.type c = Some "company" →
  idx company 2 = Auth.username c →
  (∀ r, r ∈ delete i (drop 1 data) → idx r 2 ≠ Auth.username c) →
  Auth.authorize cfg (Some c) (snd (Companies.PATCH FromOne e b st))
  = Auth.Thrown (Some Auth.disabled_message).
Proof.
  intros Hadm Hid Hn Hu Hp Him Hen Hst Hfind Hcu Hcp Hty Hname Hothers.
  destruct (PATCH_found FromOne e b st data i company Hadm Hid Hst Hfind)
    as [[Htaken _]|(_ & k & Hk & Hst' & _)].
  { unfold username_taken in Htaken. by rewrite Hu in Htaken. }
  rewrite position_FromOne in Hk. injection Hk as <-. rewrite Hst'.
  rewrite (updated_only_enabled e b company false) by done.
  apply findIndex_Some in Hfind as [Hi _].
  destruct data as [|h cs]; [done|]. simpl in Hi, Hothers. rewrite drop_0 in Hi, Hothers.
  eapply (disabled_company_refused_aux cfg c _ _ (set_idx 5 (Some "false") company));
    try done.
  - apply lookup_insert_eq.
  - simpl. rewrite drop_0, find_app_skip.
    + simpl. rewrite idx_set_idx_ne by lia. by rewrite bool_decide_eq_true_2.
    + apply Forall_forall. intros r Hr. apply bool_decide_eq_false_2. by apply Hothers.
  - apply idx_set_idx_eq.
Qed.

Lemma disabled_company_locked_out_witness :
  Auth.authorize Cases.cfg0
    (Some {| Auth.username := Some "acme"; Auth.password := Some "secret";
             Auth.type := Some "company" |})
    (snd (Companies.PATCH FromOne Sample.admin0 (Sample.toggle (Some "company_1") false)
            Cases.two))
  = Auth.Thrown (Some Auth.disabled_message).
Proof.
  apply (disabled_company_locked_out Sample.admin0 (Sample.toggle (Some "company_1") false)
           Cases.two
           [Companies.header;
            [Some "company_1"; Some "Acme"; Some "acme"; Some "$2a$10$secret"; None];
            [Some "company_2"; Some "Beta"; Some "beta"; Some "$2a$10$other"; None]]
           0 [Some "company_1"; Some "Acme"; Some "acme"; Some "$2a$10$secret"; None]
           Cases.cfg0); try reflexivity.
  intros r Hr. vm_compute in Hr.
  repeat (apply elem_of_cons in Hr as [->|Hr]; [discriminate|]).
  by apply elem_of_nil in Hr.
Defined.

(** X23. The session of a user who has just signed in: [callbacks.jwt] and
    then [callbacks.session] give the session the type that was asked for
    at sign-in and the id of the granted user; for a company the id is the
    id cell of a company row with the username and the enabled flag of the
    session is true, whatever the token and the session held before. *)
Theorem session_after_sign_in (cfg : Auth.config) (c : Auth.credentials) (st : store)
    (a : Auth.account) (tk : Auth.token) (s : Auth.session_user) :
  Auth.authorize cfg (Some c) st = Auth.Granted a →
  let s' := Auth.session_of s (Auth.jwt tk (Some a)) in
  Auth.s_type s' = Auth.type c
  ∧ Auth.s_id s' = Auth.id a
  ∧ (Auth.type c = Some "admin" → Auth.s_id s' = Some "admin")
  ∧ (Auth.type c = Some "company" →
     Auth.s_enabled s' = Some true
     ∧ ∃ company, company ∈ company_rows st
                  ∧ idx company 2 = Auth.username c
                  ∧ Auth.s_id s' = idx company 0).
Proof.
  intros Hauth s'. subst s'. unfold Auth.session_of, Auth.jwt. cbn.
  destruct (authorize_Granted cfg c st a Hauth)
    as [(Hty & _ & _ & ->)|(Hty & d & company & Hst & Hin & Hu & _ & _ & Hid & _ & Hk & Hen)].
  - rewrite Hty. cbn. repeat split; try done.
  - rewrite Hty, Hk, Hen. repeat split; try done.
    exists company. unfold company_rows. rewrite Hst. done.
Qed.

Lemma session_after_sign_in_witness :
  let s' := Auth.session_of
              {| Auth.s_id := None; Auth.s_type := None; Auth.s_image := None;
                 Auth.s_enabled := Some false |}
              (Auth.jwt {| Auth.t_id := None; Auth.t_type := None; Auth.picture := None;
                           Auth.t_enabled := Some false |}
                 (Some {| Auth.id := Some "company_2"; Auth.name := Some "Beta";
                          Auth.email := None; Auth.image := None; Auth.kind := "company";
                          Auth.enabled := Some true |})) in
  Auth.s_type s' = Some "company"
  ∧ Auth.s_id s' = Some "company_2"
  ∧ (Some "company" = Some "admin" → Auth.s_id s' = Some "admin")
  ∧ (Some "company" = Some "company" →
     Auth.s_enabled s' = Some true
     ∧ ∃ company, company ∈ company_rows Cases.two
                  ∧ idx company 2 = Some "beta"
                  ∧ Auth.s_id s' = idx company 0).
Proof.
  exact (session_after_sign_in Cases.cfg0
           {| Auth.username := Some "beta"; Auth.password := Some "other";
              Auth.type := Some "company" |} Cases.two _ _ _ eq_refl).
Defined.

(** X24. A company that the administrator has just created can sign in:
    when POST /api/companies is made with an admin session and a name, a
    username that no company has yet and a password, the companies sheet
    being absent or holding at least its header row, then [authorize] on
    the resulting store grants that username and password (as far as
    [bcrypt.compare] accepts the password against its own hash) the user
    with the new id, the name, the type 'company' and enabled true. *)
Theorem new_company_can_sign_in (e : env) (b : Companies.post_body) (st : store)
    (cfg : Auth.config) :
  is_admin e = true →
  truthy (Companies.name b) = true →
  truthy (Companies.username b) = true →
  truthy (Companies.password b) = true →
  (∀ r, r ∈ drop 1 (companies_or_new st) → idx r 2 ≠ Companies.username b) →
  companies_or_new st ≠ [] →
  Auth.compare cfg (to_string (Companies.password b))
    (Some (bcrypt_hash e (to_string (Companies.password b)) 10)) = Some true →
  Auth.authorize cfg
    (Some {| Auth.username := Companies.username b;
             Auth.password := Companies.password b;
             Auth.type := Some "company" |})
    (snd (Companies.POST e b st))
  = Auth.Granted
      {| Auth.id := idx (posted_row e b) 0;
         Auth.name := Companies.name b;
         Auth.email := None;
         Auth.image := or_else (idx (posted_row e b) 4) None;
         Auth.kind := "company";
         Auth.enabled := Some true |}.
Proof.
  intros Hadm Hn Hu Hp Hfree Hne Hcmp.
  destruct (POST_appends e b st Hadm Hn Hu Hp Hfree) as [Hst' _].
  unfold Auth.authorize. cbn [Auth.username Auth.password Auth.type].
  rewrite Hu, Hp. cbn [negb orb truthy]. unfold seq_str.
  rewrite bool_decide_eq_false_2 by done. rewrite bool_decide_eq_true_2 by done.
  unfold getSheetData. rewrite Hst'.
  destruct (companies_or_new st) as [|h cs]; [done|].
  cbn [app drop]. rewrite drop_0 in *. simpl in Hfree. rewrite drop_0 in Hfree.
  rewrite find_app_skip.
  2:{ apply Forall_forall. intros r Hr. apply bool_decide_eq_false_2. by apply Hfree. }
  cbn [List.find]. unfold posted_row at 1. cbn [idx lookup list_lookup mjoin option_join].
  replace (idx (posted_row e b) 2) with (Companies.username b) by reflexivity.
  rewrite bool_decide_eq_true_2 by reflexivity.
  replace (idx (posted_row e b) 5) with (@None string) by reflexivity.
  rewrite bool_decide_eq_false_2 by done. cbn [negb].
  replace (idx (posted_row e b) 3)
    with (Some (bcrypt_hash e (to_string (Companies.password b)) 10)) by reflexivity.
  rewrite Hcmp. reflexivity.
Qed.

Lemma new_company_can_sign_in_witness :
  Auth.authorize Cases.cfg0
    (Some {| Auth.username := Some "gamma"; Auth.password := Some "pw";
             Auth.type := Some "company" |})
    (snd (Companies.POST Sample.admin0 (Sample.new_company "Gamma" "gamma" "pw") Cases.two))
  = Auth.Granted
      {| Auth.id := idx (posted_row Sample.admin0 (Sample.new_company "Gamma" "gamma" "pw")) 0;
         Auth.name := Some "Gamma";
         Auth.email := None;
         Auth.image :=
           or_else (idx (posted_row Sample.admin0 (Sample.new_company "Gamma" "gamma" "pw")) 4)
                   None;
         Auth.kind := "company";
         Auth.enabled := Some true |}.
Proof.
  apply (new_company_can_sign_in Sample.admin0 (Sample.new_company "Gamma" "gamma" "pw")
           Cases.two Cases.cfg0); try reflexivity.
  - intros r Hr. vm_compute in Hr.
    repeat (apply elem_of_cons in Hr as [->|Hr]; [discriminate|]).
    by apply elem_of_nil in Hr.
  - discriminate.
Defined.

(** *** A new event *)

Lemma POST_event_created (e : env) (u : user) (b : Events.post_body) (st : store)
    (d : sheet) :
  session e = Some u →
  truthy (Events.companyName b) = true →
  truthy (Events.eventName b) = true →
  foreign u (to_string (Events.companyName b)) = false →
  st !! to_string (Events.companyName b) = Some d →
  table_start (to_string (Events.eventName b)) d = None →
  snd (Events.POST e b st)
  = <[to_string (Events.companyName b) :=
        with_new_table d (to_string (Events.eventName b)) Events.headers
          (Events.firstRow
             (uploaded e (Events.image_name e (Events.companyName b) (Events.eventName b))
                       (Events.p_image b) "events"))]> st.
Proof.
  intros Hs Hc He Hown Hd Hfresh.
  unfold Events.POST. rewrite Hs, Hc, He, Hown. cbn [negb orb].
  erewrite run_Ret; [done|]. rewrite bind_assoc.
  erewrite bind_Ret by (by apply create_then_first_row). done.
Qed.

(** X25. A new event is open for registration. Let POST /api/events have
    created an event (authorised session, both names given) in the existing
    sheet of a company that is not called 'companies', under a name that
    no table of the sheet has yet. Then a registration request for that
    company and event that passes the field validations is accepted, the
    company being listed in the companies table and not disabled: the flag
    that the registration handler reads in the last column of the first row
    is the 'true' that POST /api/events wrote under 'Enabled', and the first
    row is not taken for an earlier registrant. The table then holds the
    header row, the first row and the registrant's row. *)
Theorem new_event_open_for_registration (e e' : env) (u : user)
    (b : Events.post_body) (rb : Register.body) (st : store) (d : sheet)
    (companiesData : sheet) (company : row) :
  session e = Some u →
  truthy (Events.companyName b) = true →
  truthy (Events.eventName b) = true →
  foreign u (to_string (Events.companyName b)) = false →
  st !! to_string (Events.companyName b) = Some d →
  table_start (to_string (Events.eventName b)) d = None →
  to_string (Events.companyName b) ≠ "companies" →
  decodeURIComponent (Register.rawCompanyName rb)
  = Some (to_string (Events.companyName b)) →
  to_string (Register.eventName rb) = to_string (Events.eventName b) →
  Register.validate rb (to_string (Events.companyName b)) = None →
  st !! "companies" = Some companiesData →
  Register.find_company (to_string (Events.companyName b)) companiesData = Some company →
  idx company 5 ≠ Some "false" →
  let st1 := snd (Events.POST e b st) in
  let imageUrl :=
    uploaded e (Events.image_name e (Events.companyName b) (Events.eventName b))
             (Events.p_image b) "events" in
  fst (Register.POST e' rb st1) = Register.success e' rb
  ∧ getTableData (to_string (Events.companyName b)) (to_string (Events.eventName b))
      (snd (Register.POST e' rb st1))
    = (Ret [Events.headers; Events.firstRow imageUrl; Register.registration_row e' rb],
       snd (Register.POST e' rb st1)).
Proof.
  intros Hs Hc He Hown Hd Hfresh Hcn Hdec Hev Hv Hcs Hfind Hen st1 imageUrl.
  subst st1. rewrite (POST_event_created e u b st d) by done. fold imageUrl.
  set (cn := to_string (Events.companyName b)) in *.
  set (en := to_string (Events.eventName b)) in *.
  set (d1 := with_new_table d en Events.headers (Events.firstRow imageUrl)).
  destruct (new_table_rows d en Events.headers (Events.firstRow imageUrl) Hfresh)
    as (i & Hi & Hrows); [done|apply firstRow_not_blank|]. fold d1 in Hi, Hrows.
  destruct (validate_None_fields _ _ Hv) as (_ & _ & _ & Hphone & Hemail & _).
  destruct (POST_fresh e' rb (<[cn := d1]> st) cn Hdec Hv companiesData company)
    with (sheetData := d1) (i := i) as [HP HG].
  - by rewrite lookup_insert_ne.
  - done.
  - done.
  - apply lookup_insert_eq.
  - by rewrite Hev.
  - by rewrite Hrows.
  - by rewrite Hrows.
  - rewrite Hrows. intros r Hr. cbn [drop] in Hr.
    apply list_elem_of_singleton in Hr as ->. rewrite firstRow_cells. cbn.
    split; intros Heq; [rewrite <- Heq in Hemail|rewrite <- Heq in Hphone]; done.
  - rewrite HP. cbn [fst snd]. split; [done|].
    rewrite Hev in HG. rewrite HG, Hrows. done.
Qed.

Lemma new_event_open_for_registration_witness :
  let st1 := snd (Events.POST Sample.acme0 (Sample.new_event "Acme" "Launch" None)
                    Sample.fresh) in
  fst (Register.POST Sample.env0 Sample.bob_ok st1)
  = Register.success Sample.env0 Sample.bob_ok
  ∧ getTableData "Acme" "Launch" (snd (Register.POST Sample.env0 Sample.bob_ok st1))
    = (Ret [Events.headers; Events.firstRow None;
            Register.registration_row Sample.env0 Sample.bob_ok],
       snd (Register.POST Sample.env0 Sample.bob_ok st1)).
Proof.
  apply (new_event_open_for_registration Sample.acme0 Sample.env0 Sample.acme
           (Sample.new_event "Acme" "Launch" None) Sample.bob_ok Sample.fresh []
           [Sample.companies_header; Sample.acme_row None] (Sample.acme_row None));
    try reflexivity; discriminate.
Defined.

Lemma POST_rejects_invalid_witness :
  resp_status (fst (Register.POST Sample.env0
                      (Sample.bob (Some "Acme") (Some "bob@example") (Some "0123456789"))
                      (Sample.shop None "true"))) = 400
  ∧ snd (Register.POST Sample.env0
           (Sample.bob (Some "Acme") (Some "bob@example") (Some "0123456789"))
           (Sample.shop None "true"))
    = Sample.shop None "true".
Proof.
  apply (POST_rejects_invalid Sample.env0
           (Sample.bob (Some "Acme") (Some "bob@example") (Some "0123456789"))
           (Sample.shop None "true") "Acme").
  - reflexivity.
  - do 9 right. left. reflexivity.
Defined.
